(** * VAJRA front end: request lifecycle, analysis client and result presenter

    A shallow embedding of the React front end of the repository:

    - [Api.analyzeFile]         (api.js)
    - [UploadForm.handleSubmit] (components/UploadForm.js)
    - [App]                     (App.js: the three state cells and the callbacks)
    - [Presenter.ResultCard]    (components/ResultCard.js)
    - [Presenter.SummaryGraph]  (components/SummaryGraph.js)
    - [Markup]                  (the inputs of the form, the children of [App])

    JavaScript values are an inductive type, numbers are binary64 floats
    (the kernel's primitive floats), exceptions are an error monad, and the
    body of an [async] function is a tree that ends, calls a callback and
    goes on, or waits for [fetch] with the rest of the body as a function of
    how the request settles. The page is a state machine over the three
    state cells of [App], the form, and the requests in flight. *)

From Stdlib Require Import ZArith QArith Qround Lqa List String Ascii Bool Lia.
From Stdlib Require Import DecimalString.
From Stdlib Require Import Floats.PrimFloat Floats.SpecFloat Floats.FloatOps.
From Stdlib Require Import Floats.FloatAxioms.
Import ListNotations.

Set Warnings "-register-all".

Close Scope Q_scope.

Local Open Scope list_scope.
Local Open Scope string_scope.

(* ================================================================= *)
(** ** JavaScript values and the built-ins the program uses *)

Module JS.

(** The values [JSON.parse] can build, plus [undefined]. An object is the
    list of its own properties, read by first match. *)
Inductive JsVal : Type :=
| JUndefined
| JNull
| JBool (b : bool)
| JNum (x : float)
| JStr (s : string)
| JArr (items : list JsVal)
| JObj (props : list (string * JsVal)).

(** A thrown [Error]; the program only ever reads its [message]. *)
Record JsError : Type := mkError { message : string }.

(** Completion of an expression or of an awaited promise. *)
Inductive Completion (A : Type) : Type :=
| Normal (a : A)
| Throw (e : JsError).
Arguments Normal {A} a.
Arguments Throw {A} e.

Definition bind {A B} (c : Completion A) (k : A -> Completion B) : Completion B :=
  match c with
  | Normal a => k a
  | Throw e => Throw e
  end.

Notation "x <- c ;; k" := (bind c (fun x => k))
  (at level 61, c at next level, right associativity).

(** [ToBoolean]. *)
Definition truthy (v : JsVal) : bool :=
  match v with
  | JUndefined | JNull => false
  | JBool b => b
  | JNum x => negb (PrimFloat.is_zero x || PrimFloat.is_nan x)
  | JStr s => negb (String.eqb s "")
  | JArr _ | JObj _ => true
  end.

(** [a || b] *)
Definition or_else (a b : JsVal) : JsVal := if truthy a then a else b.

(** [a || b] on strings, as in [err.message || 'Network error']. *)
Definition str_or_else (a b : string) : string :=
  if String.eqb a "" then b else a.

Fixpoint lookup (k : string) (props : list (string * JsVal)) : JsVal :=
  match props with
  | [] => JUndefined
  | (k', v) :: rest => if String.eqb k k' then v else lookup k rest
  end.

(** The [TypeError] of a property read on [null] or [undefined], with the
    message V8 gives it. *)
Definition type_error_read (base k : string) : JsError :=
  mkError ("Cannot read properties of " ++ base ++ " (reading '" ++ k ++ "')").

(** [v.k] for the property names the program reads ([error], [metadata],
    [summary], [risk_analysis], [advanced_analysis], [input_type],
    [risk_detected], [call_outcome], [risk_score]); none of them is defined
    on a prototype or on a primitive's wrapper, so only an object's own
    properties can answer. *)
Definition get (v : JsVal) (k : string) : Completion JsVal :=
  match v with
  | JUndefined => Throw (type_error_read "undefined" k)
  | JNull => Throw (type_error_read "null" k)
  | JObj props => Normal (lookup k props)
  | JBool _ | JNum _ | JStr _ | JArr _ => Normal JUndefined
  end.

(** A destructuring default, [{ k = d } = v]: the default replaces
    [undefined] only. *)
Definition default_to (d v : JsVal) : JsVal :=
  match v with
  | JUndefined => d
  | _ => v
  end.

(** *** Numbers *)

(** A mantissa with its sign. *)
Definition signed (s : bool) (m : positive) : Z := if s then Z.neg m else Z.pos m.

(** The exact value of a finite float, mantissa times 2^exponent. *)
Definition float_value (x : float) : option Q :=
  match Prim2SF x with
  | S754_zero _ => Some 0%Q
  | S754_finite s m e =>
      Some (match e with
            | Z.neg k => Qmake (signed s m) (2 ^ k)
            | _ => inject_Z (signed s m * 2 ^ e)
            end)
  | S754_infinity _ | S754_nan => None
  end.

Definition is_integral (x : float) : bool :=
  match float_value x with
  | Some q => Qeq_bool (inject_Z (Qfloor q)) q
  | None => false
  end.

(** Rounding to the nearest integer, a tie going up. *)
Definition round_half_up (q : Q) : Z := Qfloor (q + (1 # 2))%Q.

(** The float nearest to an integer. *)
Definition float_of_Z (n : Z) : float :=
  SF2Prim (binary_normalize prec emax n 0 false).

Definition Qlt_bool (a b : Q) : bool := negb (Qle_bool b a).

(** [Math.round] (ECMAScript 21.3.2.28): a value that is not finite or is
    integral is returned as it is; a value in the open interval (0, 0.5)
    gives +0 and one in [-0.5, 0) gives -0; any other value gives the
    integral number closest to it, the one closer to +infinity on a tie. *)
Definition Math_round (x : float) : float :=
  match float_value x with
  | None => x
  | Some q =>
      if is_integral x then x
      else if Qlt_bool 0 q && Qlt_bool q (1 # 2) then PrimFloat.zero
      else if Qlt_bool q 0 && Qle_bool (- (1 # 2)) q then PrimFloat.neg_zero
      else float_of_Z (round_half_up q)
  end.

(** *** Conversions between numbers and strings

    [Number::toString] and [StringToNumber] are the two ECMAScript numeric
    conversions. The program reaches the first for the title of the chart
    and both for payload fields of an unexpected type; they are kept
    abstract. *)

(** The object has an own property [k], whatever its value. *)
Fixpoint has_own (k : string) (props : list (string * JsVal)) : bool :=
  match props with
  | [] => false
  | (k', _) :: rest => String.eqb k k' || has_own k rest
  end.

(** The [TypeError] of [OrdinaryToPrimitive] when neither [toString] nor
    [valueOf] gives a primitive, with the message V8 gives it. *)
Definition type_error_primitive : JsError :=
  mkError "Cannot convert object to primitive value".

(** [Array.prototype.join(",")] over the strings of the elements. *)
Fixpoint join (parts : list string) : string :=
  match parts with
  | [] => ""
  | [p] => p
  | p :: rest => p ++ "," ++ join rest
  end.

Section Elements.

Variable element : JsVal -> Completion string.

(** The strings of the elements of an array, from the first on; the first
    conversion that throws ends the loop of [join]. *)
Fixpoint strings_of (items : list JsVal) : Completion (list string) :=
  match items with
  | [] => Normal []
  | i :: rest =>
      p <- element i ;;
      ps <- strings_of rest ;;
      Normal (p :: ps)
  end.

End Elements.

Section Conversions.

Variable NumberToString : float -> string.
Variable StringToNumber : string -> float.

(** [String(v)], that is [ToString] of a value that is no symbol.

    An object goes through [OrdinaryToPrimitive] with hint string: first
    the method [toString], then [valueOf]. The values are those of a parsed
    JSON text, so an own property is never callable and no prototype but
    the built-in ones is in play. An object with an own [toString] has no
    callable [toString]; its [valueOf] is either an own property, not
    callable, or the inherited one, which returns the object itself: a
    [TypeError]. Without an own [toString] the inherited one answers
    ["[object Object]"].

    An array inherits [Array.prototype.toString], which is [join]: the
    strings of the elements, [null] and [undefined] giving the empty
    string, and every other element going through [ToString] in turn. *)
Fixpoint String_ (v : JsVal) : Completion string :=
  match v with
  | JUndefined => Normal "undefined"
  | JNull => Normal "null"
  | JBool true => Normal "true"
  | JBool false => Normal "false"
  | JNum x => Normal (NumberToString x)
  | JStr s => Normal s
  | JArr items =>
      parts <- strings_of (fun i => match i with
                                    | JUndefined | JNull => Normal ""
                                    | _ => String_ i
                                    end) items ;;
      Normal (join parts)
  | JObj props =>
      if has_own "toString" props then Throw type_error_primitive
      else Normal "[object Object]"
  end.

(** [ToNumber], as the operand of [*] goes through it. An array or an
    object goes through [OrdinaryToPrimitive] with hint number: [valueOf]
    first, which is not callable or returns the object itself, then
    [toString] as in [String_]; the string is then read as a number. *)
Definition ToNumber (v : JsVal) : Completion float :=
  match v with
  | JUndefined => Normal PrimFloat.nan
  | JNull => Normal PrimFloat.zero
  | JBool true => Normal PrimFloat.one
  | JBool false => Normal PrimFloat.zero
  | JNum x => Normal x
  | JStr s => Normal (StringToNumber s)
  | JArr _ | JObj _ =>
      s <- String_ v ;;
      Normal (StringToNumber s)
  end.

End Conversions.

End JS.

Import JS.

(* ================================================================= *)
(** ** The result presenter: SummaryGraph.js and ResultCard.js *)

Module Presenter.

(** What [SummaryGraph] hands to the bar chart. *)
Record Chart : Type := mkChart
  { chart_labels : list string;
    chart_data : list float;
    x_min : float;
    x_max : float;
    title_text : string }.

(** What [ResultCard] renders: the children of its elements, in order. *)
Record Card : Type := mkCard
  { input_type_child : JsVal;
    summary_child : JsVal;
    risk_detected_text : string;
    call_outcome_child : JsVal;
    graph : Chart }.

Section WithConversions.

Variable NumberToString : float -> string.
Variable StringToNumber : string -> float.

(** [const percent = Math.round(riskScore * 100)], after the parameter
    default [riskScore = 0]; the product converts its left operand to a
    number, which can throw. *)
Definition percent_of (riskScore : JsVal) : Completion float :=
  let riskScore := default_to (JNum 0) riskScore in
  n <- ToNumber NumberToString StringToNumber riskScore ;;
  Normal (Math_round (PrimFloat.mul n 100)).

(** The chart for a percentage. *)
Definition chart_of (percent : float) : Chart :=
  {| chart_labels := ["Risk Score"];
     chart_data := [percent];
     x_min := 0;
     x_max := 100;
     title_text := "Risk score: " ++ NumberToString percent ++ "%" |}.

Definition SummaryGraph (riskScore : JsVal) : Completion Chart :=
  percent <- percent_of riskScore ;;
  Normal (chart_of percent).

(** The render of [ResultCard({ data })], down to the chart: [null] when
    [data] is falsy; otherwise the body of [ResultCard], whose property
    reads and whose call of [String] are evaluated in the order of the JSX
    (input type, summary, risk line, call outcome, risk score), and then
    the body of [SummaryGraph], the component it places, with the prop
    [riskScore]. The first step that throws ends the render. *)
Definition ResultCard (data : JsVal) : Completion (option Card) :=
  if negb (truthy data) then Normal None
  else
    m <- get data "metadata" ;;
    s <- get data "summary" ;;
    r <- get data "risk_analysis" ;;
    a <- get data "advanced_analysis" ;;
    let metadata := default_to (JObj []) m in
    let summary := default_to (JStr "") s in
    let risk_analysis := default_to (JObj []) r in
    let advanced_analysis := default_to (JObj []) a in
    input_type <- get metadata "input_type" ;;
    risk_detected <- get risk_analysis "risk_detected" ;;
    risk_text <- String_ NumberToString risk_detected ;;
    call_outcome <- get advanced_analysis "call_outcome" ;;
    risk_score <- get advanced_analysis "risk_score" ;;
    chart <- SummaryGraph (or_else risk_score (JNum 0)) ;;
    Normal (Some {| input_type_child := input_type;
                    summary_child := summary;
                    risk_detected_text := risk_text;
                    call_outcome_child := call_outcome;
                    graph := chart |}).

(** The percentage on display. *)
Definition displayed_percent (c : Card) : list float := chart_data (graph c).

End WithConversions.

End Presenter.

(* ================================================================= *)
(** ** The browser interfaces the program uses *)

Module Web.

Record File : Type := mkFile { name : string; bytes : list Byte.byte }.

(** An entry of a [FormData]: a string, or a file with its file name. *)
Inductive FormValue : Type :=
| FVString (s : string)
| FVFile (f : File) (filename : string).

Definition FormData : Type := list (string * FormValue).

Record Request : Type := mkRequest
  { url : string; method : string; body : FormData }.

(** What the program observes of a [Response]: its status, and what
    [text()] and [json()] settle with. *)
Record Response : Type := mkResponse
  { status : N;
    text : Completion string;
    json : Completion JsVal }.

(** [res.ok]: the status is in the range 200-299 (Fetch standard). *)
Definition ok (res : Response) : bool :=
  (200 <=? status res)%N && (status res <=? 299)%N.

(** How the promise of [fetch] settles. *)
Inductive FetchOutcome : Type :=
| Rejects (err : JsError)
| Resolves (res : Response).

(** The body of an [async] function that may call callbacks of type [C]:
    it returns, or calls a callback and goes on, or awaits [fetch] and goes
    on when the request has settled. *)
Inductive Async (C A : Type) : Type :=
| Return (a : A)
| Invoke (c : C) (next : Async C A)
| AwaitFetch (req : Request) (resume : FetchOutcome -> Async C A).
Arguments Return {C A} a.
Arguments Invoke {C A} c next.
Arguments AwaitFetch {C A} req resume.

(** [const x = await t; k x], and [t; k] when [x] is not used. *)
Fixpoint and_then {C A B : Type} (t : Async C A) (k : A -> Async C B) : Async C B :=
  match t with
  | Return a => k a
  | Invoke c next => Invoke c (and_then next k)
  | AwaitFetch req resume => AwaitFetch req (fun net => and_then (resume net) k)
  end.

Notation "x <~ t ;; k" := (and_then t (fun x => k))
  (at level 61, t at next level, right associativity).

(** An integer status in a template literal. *)
Definition decimal (n : N) : string := NilEmpty.string_of_uint (N.to_uint n).

End Web.

(* ================================================================= *)
(** ** The analysis client: api.js *)

Module Api.
Import Web.

(** [analyzeFile]: one request; the [try] block after it is a computation
    in [Completion], and the [catch] turns every exception, the rejection of
    [fetch] included, into an [{ error }] object. The promise of
    [analyzeFile] is never rejected. *)
Definition analyzeFile {C : Type} (formData : FormData) : Async C JsVal :=
  AwaitFetch
    {| url := "http://localhost:8000/analyze"; method := "POST"; body := formData |}
    (fun net =>
       let attempt : Completion JsVal :=
         res <- match net with
                | Rejects err => Throw err
                | Resolves res => Normal res
                end ;;
         if negb (ok res) then
           body_text <- text res ;;
           Normal (JObj [("error",
                          JStr ("Server returned status " ++ decimal (status res)
                                ++ ": " ++ body_text))])
         else
           data <- json res ;;
           Normal data
       in
       Return match attempt with
              | Normal v => v
              | Throw err =>
                  JObj [("error", JStr (str_or_else (message err) "Network error"))]
              end).

End Api.

(* ================================================================= *)
(** ** The form: components/UploadForm.js *)

Module UploadForm.
Import Web Api.

(** The [file] state cell: [null] at first, then [files && files[0]], which
    is a [File] or [undefined]. *)
Inductive FileCell : Type :=
| FileNull
| FileUndefined
| FileChosen (f : File).

Record FormState : Type := mkForm { inputType : string; file : FileCell }.

Definition initial_form : FormState := {| inputType := "text"; file := FileNull |}.

(** The three optional callback props, as updates of the host's state. *)
Record Props (S : Type) : Type := mkProps
  { onStart : option (S -> S);
    onResult : option (JsVal -> S -> S);
    onError : option (JsVal -> S -> S) }.
Arguments onStart {S} p.
Arguments onResult {S} p.
Arguments onError {S} p.

(** A call of one of the props. *)
Inductive Callback : Type :=
| OnStart
| OnResult (res : JsVal)
| OnError (err : JsVal).

Section Handler.

Context {S : Type} (props : Props S).

(** [onStart && onStart()] and its two siblings. *)
Definition call_onStart : Async Callback unit :=
  match onStart props with
  | Some _ => Invoke OnStart (Return tt)
  | None => Return tt
  end.

Definition call_onResult (res : JsVal) : Async Callback unit :=
  match onResult props with
  | Some _ => Invoke (OnResult res) (Return tt)
  | None => Return tt
  end.

Definition call_onError (err : JsVal) : Async Callback unit :=
  match onError props with
  | Some _ => Invoke (OnError err) (Return tt)
  | None => Return tt
  end.

(** [handleSubmit], with the form's state cells as they are when the form
    is submitted ([e.preventDefault()] has no part in the model). *)
Definition handleSubmit (st : FormState) : Async Callback unit :=
  match file st with
  | FileNull | FileUndefined =>
      call_onError (JStr "Please choose a file to upload")
  | FileChosen f =>
      _ <~ call_onStart ;;
      let formData :=
        [("input_type", FVString (inputType st)); ("file", FVFile f (name f))] in
      res <~ analyzeFile formData ;;
      match get res "error" with
      | Normal e => if truthy e then call_onError e else call_onResult res
      | Throw err => call_onError (JStr (str_or_else (message err) "Unknown error"))
      end
  end.

(** The host's state after a callback has run. *)
Definition perform (c : Callback) (s : S) : S :=
  match c with
  | OnStart => match onStart props with Some f => f s | None => s end
  | OnResult res => match onResult props with Some f => f res s | None => s end
  | OnError err => match onError props with Some f => f err s | None => s end
  end.

End Handler.

End UploadForm.

(* ================================================================= *)
(** ** The controller: App.js *)

Module App.
Import Web Api UploadForm.

(** The three [useState] cells. *)
Record AppState : Type := mkApp
  { loading : bool; result : JsVal; error : JsVal }.

Definition initial : AppState :=
  {| loading := false; result := JNull; error := JNull |}.

Definition App_onStart (s : AppState) : AppState :=
  {| loading := true; error := JNull; result := JNull |}.

Definition App_onResult (res : JsVal) (s : AppState) : AppState :=
  {| loading := false; result := res; error := error s |}.

Definition App_onError (err : JsVal) (s : AppState) : AppState :=
  {| loading := false; result := result s; error := err |}.

Definition props : Props AppState :=
  {| onStart := Some App_onStart;
     onResult := Some App_onResult;
     onError := Some App_onError |}.

(** What the three conditional children of [<main>] put on the page. *)
Definition shows_loading (s : AppState) : bool := loading s.
Definition shows_error (s : AppState) : bool := truthy (error s).
Definition shows_result (s : AppState) : bool := truthy (result s).

(** A run of [handleSubmit] suspended at its [await]. *)
Definition Suspended : Type := FetchOutcome -> Async Callback unit.

(** The page: the cells of [App], the cells of the form, the log of all
    requests sent, and the suspended handlers, each under the position of
    its request in the log. *)
Record Page : Type := mkPage
  { app : AppState;
    form : FormState;
    sent : list Request;
    in_flight : list (nat * Suspended) }.

Definition start : Page :=
  {| app := initial; form := initial_form; sent := []; in_flight := [] |}.

Inductive Event : Type :=
| SelectType (t : string)
| SelectFile (f : FileCell)
| Submit
| Settle (id : nat) (net : FetchOutcome).

Fixpoint suspended_at (id : nat) (l : list (nat * Suspended)) : option Suspended :=
  match l with
  | [] => None
  | (i, k) :: rest => if Nat.eqb id i then Some k else suspended_at id rest
  end.

Definition without (id : nat) (l : list (nat * Suspended)) : list (nat * Suspended) :=
  filter (fun entry => negb (Nat.eqb id (fst entry))) l.

(** Run a handler until it returns or suspends. *)
Fixpoint drive (t : Async Callback unit) (p : Page) : Page :=
  match t with
  | Return _ => p
  | Invoke c next =>
      drive next {| app := perform props c (app p); form := form p;
                    sent := sent p; in_flight := in_flight p |}
  | AwaitFetch req resume =>
      {| app := app p; form := form p;
         sent := sent p ++ [req];
         in_flight := in_flight p ++ [(List.length (sent p), resume)] |}
  end.

(** One turn of the event loop. *)
Definition step (p : Page) (ev : Event) : Page :=
  match ev with
  | SelectType t =>
      {| app := app p; form := {| inputType := t; file := file (form p) |};
         sent := sent p; in_flight := in_flight p |}
  | SelectFile f =>
      {| app := app p; form := {| inputType := inputType (form p); file := f |};
         sent := sent p; in_flight := in_flight p |}
  | Submit => drive (handleSubmit props (form p)) p
  | Settle id net =>
      match suspended_at id (in_flight p) with
      | Some resume =>
          drive (resume net)
            {| app := app p; form := form p; sent := sent p;
               in_flight := without id (in_flight p) |}
      | None => p
      end
  end.

Definition run (p : Page) (evs : list Event) : Page := fold_left step evs p.

Definition reachable (p : Page) : Prop := exists evs, p = run start evs.

End App.

(* ================================================================= *)
(** ** The markup: the inputs of UploadForm.js and the children of App.js *)

Module Markup.
Import Web UploadForm App Presenter.

(** [e.target.files] of the file input: [null], or the list of the files
    that were picked. *)
Inductive Files : Type :=
| NoFileList
| FileList (files : list File).

(** The [onChange] of the file input:
    [setFile(e.target.files && e.target.files[0])]. *)
Definition file_onChange (files : Files) : FileCell :=
  match files with
  | NoFileList => FileNull
  | FileList [] => FileUndefined
  | FileList (f :: _) => FileChosen f
  end.

(** The values of the [<option>]s of the select; its [onChange] passes the
    one picked to [setInputType]. *)
Definition type_options : list string := ["text"; "audio"].

(** A conditional child [a && <element/>]: the element when [a] is truthy,
    and [a] itself when it is not. *)
Inductive Slot (E : Type) : Type :=
| Element (e : E)
| Bare (v : JsVal).
Arguments Element {E} e.
Arguments Bare {E} v.

(** The three conditional children of [<main>]: the progress line with its
    text, the error line with the value shown after "Error: ", and what
    [ResultCard] returned. *)
Record View : Type := mkView
  { loading_slot : Slot string;
    error_slot : Slot JsVal;
    result_slot : Slot (option Card) }.

Section Render.

Variable NumberToString : float -> string.
Variable StringToNumber : string -> float.

(** The element tree [App] returns for its three cells; [ResultCard] runs
    when its element is rendered, and what it throws ends the render. How
    React goes on to draw the children is not part of the model. *)
Definition App_view (s : AppState) : Completion View :=
  card <- (if truthy (result s)
           then c <- ResultCard NumberToString StringToNumber (result s) ;;
                Normal (Element c)
           else Normal (Bare (result s))) ;;
  Normal {| loading_slot := if loading s
                            then Element "Analyzing... please wait"
                            else Bare (JBool false);
            error_slot := if truthy (error s)
                          then Element (error s)
                          else Bare (error s);
            result_slot := card |}.

End Render.

End Markup.

(* ================================================================= *)
(** ** Vocabulary of the statements *)

Import Web Api UploadForm App.

(** [needle] occurs in [hay]. *)
Definition contains (needle hay : string) : Prop :=
  exists pre post, hay = pre ++ needle ++ post.

(** The object [{ error: msg }]. *)
Definition error_object (msg : string) : JsVal := JObj [("error", JStr msg)].

(** [!file] *)
Definition file_absent (c : FileCell) : bool :=
  match c with
  | FileChosen _ => false
  | FileNull | FileUndefined => true
  end.

(** The ways a call of [analyzeFile] can fail: [fetch] rejects; the status
    is outside 200-299, and the text of the body is read or cannot be; the
    status is in 200-299 and the body does not parse. *)
Inductive Failure : FetchOutcome -> Prop :=
| TransportFailure (err : JsError) :
    Failure (Rejects err)
| ServerFailure (res : Response) (body_text : string) :
    ok res = false -> text res = Normal body_text -> Failure (Resolves res)
| UnreadableFailure (res : Response) (err : JsError) :
    ok res = false -> text res = Throw err -> Failure (Resolves res)
| ParseFailure (res : Response) (err : JsError) :
    ok res = true -> json res = Throw err -> Failure (Resolves res).

(** What is left of an [async] body once the request it awaits has settled
    with [net]; the calls made before the [await] are passed over. *)
Fixpoint resumed {C A : Type} (net : FetchOutcome) (t : Async C A) : Async C A :=
  match t with
  | Return a => Return a
  | Invoke _ next => resumed net next
  | AwaitFetch _ resume => resume net
  end.

(** The cells of [App] after the calls a body makes before it returns or
    suspends. *)
Fixpoint after_calls (t : Async Callback unit) (s : AppState) : AppState :=
  match t with
  | Return _ => s
  | Invoke c next => after_calls next (perform props c s)
  | AwaitFetch _ _ => s
  end.

(** How a submission ends: with a report or with an error. *)
Inductive Verdict : Type :=
| Succeeded (report : JsVal)
| Failed (err : JsVal).

(** The verdict of a resumed handler: the one callback it calls. *)
Definition verdict (t : Async Callback unit) : option Verdict :=
  match t with
  | Invoke (OnResult res) (Return _) => Some (Succeeded res)
  | Invoke (OnError err) (Return _) => Some (Failed err)
  | _ => None
  end.

(** The state every submission starts from. *)
Definition submitting : AppState :=
  {| loading := true; result := JNull; error := JNull |}.

(** While [loading] is true the other two cells are empty. *)
Definition exclusive (s : AppState) : Prop :=
  loading s = true -> error s = JNull /\ result s = JNull.

(** Every suspended handler waits for a request that has been sent. *)
Definition ids_below (n : nat) (l : list (nat * Suspended)) : Prop :=
  Forall (fun entry => fst entry < n) l.

(** The property [k] of [v] when [v] is an object that has it, and
    [undefined] otherwise: the reading of a payload in which anything may
    be missing. *)
Definition field (v : JsVal) (k : string) : JsVal :=
  match v with
  | JObj props => lookup k props
  | _ => JUndefined
  end.

(** [data.c.k], missing when either level is. *)
Definition nested (data : JsVal) (c k : string) : JsVal := field (field data c) k.

Definition is_null (v : JsVal) : bool :=
  match v with
  | JNull => true
  | _ => false
  end.

(** The payload of the first end-to-end scenario; 0x1.eb851eb851eb8p-4 is
    the float of the literal 0.12. *)
Definition all_good : JsVal :=
  JObj [("metadata", JObj [("input_type", JStr "text")]);
        ("summary", JStr "All good");
        ("risk_analysis", JObj [("risk_detected", JBool false)]);
        ("advanced_analysis",
         JObj [("call_outcome", JStr "resolved");
               ("risk_score", JNum 0x1.eb851eb851eb8p-4)])].

(** [ToPrimitive] succeeds on [v]: no object with an own [toString] is met
    on the way to its string. *)
Fixpoint convertible (v : JsVal) : bool :=
  match v with
  | JArr items => forallb convertible items
  | JObj props => negb (has_own "toString" props)
  | _ => true
  end.

(** A conversion ends in a value when [ToPrimitive] succeeds, and in the
    [TypeError] of [OrdinaryToPrimitive] when it does not. *)
Definition settles {A : Type} (v : JsVal) (c : Completion A) : Prop :=
  (convertible v = true /\ exists a, c = Normal a)
  \/ (convertible v = false /\ c = Throw type_error_primitive).

(** The card [ResultCard] builds when nothing throws, for the string of the
    risk flag and the percentage. *)
Definition card_of (NumberToString : float -> string) (data : JsVal)
    (risk_text : string) (percent : float) : Presenter.Card :=
  {| Presenter.input_type_child := nested data "metadata" "input_type";
     Presenter.summary_child := default_to (JStr "") (field data "summary");
     Presenter.risk_detected_text := risk_text;
     Presenter.call_outcome_child := nested data "advanced_analysis" "call_outcome";
     Presenter.graph := Presenter.chart_of NumberToString percent |}.

(** *** Vocabulary of the further properties *)

(** The request [handleSubmit] sends for an input type and a file. *)
Definition analysis_request (t : string) (f : File) : Request :=
  {| url := "http://localhost:8000/analyze";
     method := "POST";
     body := [("input_type", FVString t); ("file", FVFile f (name f))] |}.

(** A suspended run of [handleSubmit] under the props of [App]. *)
Definition handler_of (resume : Suspended) : Prop :=
  exists st f,
    file st = FileChosen f
    /\ forall net, resume net = resumed net (handleSubmit props st).

Definition all_handlers (l : list (nat * Suspended)) : Prop :=
  Forall (fun entry => handler_of (snd entry)) l.

(** The cells once a verdict has been delivered. *)
Definition delivered (v : Verdict) (s : AppState) : AppState :=
  match v with
  | Succeeded report => App_onResult report s
  | Failed err => App_onError err s
  end.

(** Some cell differs from how [App] starts. *)
Definition touched (s : AppState) : Prop :=
  loading s = true \/ error s <> JNull \/ result s <> JNull.

Definition is_submit (ev : Event) : bool :=
  match ev with
  | Submit => true
  | _ => false
  end.

(** The events the two inputs of the form can produce, besides submits and
    the settling of requests. *)
Definition form_event (ev : Event) : Prop :=
  match ev with
  | SelectType t => In t Markup.type_options
  | SelectFile c => exists files, c = Markup.file_onChange files
  | Submit | Settle _ _ => True
  end.

(** A request the analysis service expects: the fixed endpoint, and the two
    fields with one of the two input types and the file under its name. *)
Definition expected_request (r : Request) : Prop :=
  exists t f, In t Markup.type_options /\ r = analysis_request t f.

(* ================================================================= *)
(** ** The analysis client and the submit handler *)

Lemma truthy_nonempty (s : string) : s <> "" -> truthy (JStr s) = true.
Proof.
  intros Hs. simpl. destruct (String.eqb_spec s ""); [contradiction | reflexivity].
Qed.

Lemma str_or_else_nonempty (a b : string) : b <> "" -> str_or_else a b <> "".
Proof.
  intros Hb. unfold str_or_else.
  destruct (String.eqb_spec a ""); assumption.
Qed.

Lemma contains_middle (pre needle post : string) :
  contains needle (pre ++ needle ++ post).
Proof. exists pre, post. reflexivity. Qed.

Lemma append_nil_r (s : string) : s ++ "" = s.
Proof. induction s as [|c s IH]; simpl; [reflexivity | now rewrite IH]. Qed.

Lemma append_assoc (a b c : string) : (a ++ b) ++ c = a ++ b ++ c.
Proof. induction a as [|x a IH]; simpl; [reflexivity | now rewrite IH]. Qed.

Lemma contains_end (pre needle : string) : contains needle (pre ++ needle).
Proof. exists pre, "". now rewrite append_nil_r. Qed.

(** [analyzeFile] always fulfils its promise. *)
Lemma analyzeFile_returns (net : FetchOutcome) :
  exists v, forall (C : Type) (fd : FormData),
      resumed net (@analyzeFile C fd) = Return v.
Proof. eexists. intros C fd. reflexivity. Qed.

Lemma transport_failure_result (C : Type) (fd : FormData) (err : JsError) :
  resumed (Rejects err) (@analyzeFile C fd)
  = Return (error_object (str_or_else (message err) "Network error")).
Proof. reflexivity. Qed.

Lemma server_failure_result (C : Type) (fd : FormData)
    (res : Response) (body_text : string) :
  ok res = false ->
  text res = Normal body_text ->
  resumed (Resolves res) (@analyzeFile C fd)
  = Return (error_object
              ("Server returned status " ++ decimal (status res) ++ ": " ++ body_text)).
Proof.
  intros Hok Htext. cbn [resumed analyzeFile bind]. now rewrite Hok, Htext.
Qed.

Lemma parse_failure_result (C : Type) (fd : FormData)
    (res : Response) (err : JsError) :
  ok res = true ->
  json res = Throw err ->
  resumed (Resolves res) (@analyzeFile C fd)
  = Return (error_object (str_or_else (message err) "Network error")).
Proof.
  intros Hok Hjson. cbn [resumed analyzeFile bind]. now rewrite Hok, Hjson.
Qed.

Lemma success_result (C : Type) (fd : FormData) (res : Response) (data : JsVal) :
  ok res = true ->
  json res = Normal data ->
  resumed (Resolves res) (@analyzeFile C fd) = Return data.
Proof.
  intros Hok Hjson. cbn [resumed analyzeFile bind]. now rewrite Hok, Hjson.
Qed.

Lemma resumed_await {C A B : Type} (net : FetchOutcome) (req : Request)
    (resume : FetchOutcome -> Async C A) (k : A -> Async C B) (a : A) :
  resume net = Return a ->
  resumed net (and_then (AwaitFetch req resume) k) = k a.
Proof. intros H. cbn [and_then resumed]. now rewrite H. Qed.

(** The handler after its [await], from the value [analyzeFile] returned. *)
Lemma handleSubmit_resumed {S : Type} (pr : Props S) (st : FormState) (f : File)
    (net : FetchOutcome) (v : JsVal) :
  file st = FileChosen f ->
  (forall fd, resumed net (@analyzeFile Callback fd) = Return v) ->
  resumed net (handleSubmit pr st)
  = match get v "error" with
    | Normal e => if truthy e then call_onError pr e else call_onResult pr v
    | Throw err => call_onError pr (JStr (str_or_else (message err) "Unknown error"))
    end.
Proof.
  intros Hfile Hv. unfold handleSubmit. rewrite Hfile.
  specialize (Hv [("input_type", FVString (inputType st)); ("file", FVFile f (name f))]).
  unfold call_onStart. destruct (onStart pr); cbn [and_then resumed];
    unfold analyzeFile at 1;
    (etransitivity; [apply resumed_await; exact Hv | reflexivity]).
Qed.

(** An [{ error }] object with a message that is not empty always ends in
    the error callback. *)
Lemma resumed_on_error_object {S : Type} (pr : Props S) (st : FormState) (f : File)
    (net : FetchOutcome) (msg : string) :
  file st = FileChosen f ->
  (forall fd, resumed net (@analyzeFile Callback fd) = Return (error_object msg)) ->
  msg <> "" ->
  resumed net (handleSubmit pr st) = call_onError pr (JStr msg).
Proof.
  intros Hfile Hres Hmsg.
  rewrite (handleSubmit_resumed pr st f net _ Hfile Hres).
  unfold error_object, get. cbn [lookup].
  cbv [String.eqb Ascii.eqb Bool.eqb].
  now rewrite (truthy_nonempty msg Hmsg).
Qed.

(** A resumed handler calls exactly one callback of [App]. *)
Lemma handler_verdict (st : FormState) (f : File) (net : FetchOutcome) :
  file st = FileChosen f ->
  exists v, verdict (resumed net (handleSubmit props st)) = Some v.
Proof.
  intros Hfile. destruct (analyzeFile_returns net) as [v Hv].
  rewrite (handleSubmit_resumed props st f net v Hfile (Hv Callback)).
  destruct (get v "error") as [e | err]; [destruct (truthy e)|];
    eexists; reflexivity.
Qed.

Lemma verdict_inv (t : Async Callback unit) (v : Verdict) :
  verdict t = Some v ->
  t = Invoke (match v with
              | Succeeded res => OnResult res
              | Failed err => OnError err
              end) (Return tt).
Proof.
  destruct t as [a | c next | req k]; try discriminate.
  destruct c; try discriminate; destruct next as [[] | |]; try discriminate;
    intros [= <-]; reflexivity.
Qed.

(* ================================================================= *)
(** ** The page *)

Lemma drive_app (t : Async Callback unit) (p : Page) :
  app (drive t p) = after_calls t (app p).
Proof.
  revert p. induction t as [a | c next IH | req k _]; intros p; cbn.
  - reflexivity.
  - now rewrite IH.
  - reflexivity.
Qed.

Lemma after_calls_exclusive (t : Async Callback unit) (s : AppState) :
  exclusive s -> exclusive (after_calls t s).
Proof.
  revert s. induction t as [a | c next IH | req k _]; intros s Hs; cbn;
    try assumption.
  apply IH. destruct c; cbn.
  - intros _. split; reflexivity.
  - intros Hl. discriminate Hl.
  - intros Hl. discriminate Hl.
Qed.

Lemma drive_ids_below (t : Async Callback unit) (p : Page) :
  ids_below (List.length (sent p)) (in_flight p) ->
  ids_below (List.length (sent (drive t p))) (in_flight (drive t p)).
Proof.
  revert p. induction t as [a | c next IH | req k _]; intros p Hp; cbn.
  - exact Hp.
  - now apply IH.
  - unfold ids_below in *. rewrite length_app. cbn [List.length].
    apply Forall_app. split.
    + eapply Forall_impl; [|exact Hp]. cbn. lia.
    + constructor; [cbn; lia | constructor].
Qed.

Lemma without_ids_below (n id : nat) (l : list (nat * Suspended)) :
  ids_below n l -> ids_below n (without id l).
Proof.
  unfold ids_below, without. intros Hl. apply Forall_forall.
  intros entry Hin. apply filter_In in Hin. rewrite Forall_forall in Hl.
  now apply Hl.
Qed.

Lemma step_exclusive (p : Page) (ev : Event) :
  exclusive (app p) -> exclusive (app (step p ev)).
Proof.
  intros Hp. destruct ev as [t | f | | id net]; cbn [step app]; try assumption.
  - rewrite drive_app. now apply after_calls_exclusive.
  - destruct (suspended_at id (in_flight p)); [|assumption].
    rewrite drive_app. now apply after_calls_exclusive.
Qed.

Lemma step_ids_below (p : Page) (ev : Event) :
  ids_below (List.length (sent p)) (in_flight p) ->
  ids_below (List.length (sent (step p ev))) (in_flight (step p ev)).
Proof.
  intros Hp. destruct ev as [t | f | | id net]; cbn [step sent in_flight];
    try assumption.
  - now apply drive_ids_below.
  - destruct (suspended_at id (in_flight p)); [|assumption].
    apply drive_ids_below. cbn [sent in_flight]. now apply without_ids_below.
Qed.

Lemma run_snoc (p : Page) (evs : list Event) (ev : Event) :
  run p (evs ++ [ev])%list = step (run p evs) ev.
Proof. unfold run. now rewrite fold_left_app. Qed.

Lemma reachable_ind' (P : Page -> Prop) :
  P start ->
  (forall p ev, P p -> P (step p ev)) ->
  forall p, reachable p -> P p.
Proof.
  intros Hstart Hstep p [evs ->].
  induction evs as [|ev evs IH] using rev_ind.
  - exact Hstart.
  - rewrite run_snoc. now apply Hstep.
Qed.

Lemma reachable_exclusive (p : Page) : reachable p -> exclusive (app p).
Proof.
  apply (reachable_ind' (fun p => exclusive (app p))).
  - intros Hl. discriminate Hl.
  - intros q ev. apply step_exclusive.
Qed.

Lemma reachable_ids_below (p : Page) :
  reachable p -> ids_below (List.length (sent p)) (in_flight p).
Proof.
  apply (reachable_ind' (fun p => ids_below (List.length (sent p)) (in_flight p))).
  - constructor.
  - intros q ev. apply step_ids_below.
Qed.

Lemma suspended_at_fresh (n id : nat) (l l' : list (nat * Suspended)) :
  ids_below n l -> n <= id ->
  suspended_at id (l ++ l') = suspended_at id l'.
Proof.
  unfold ids_below. intros Hl Hid.
  induction Hl as [|[i k] l Hi _ IH]; cbn; [reflexivity|].
  cbn in Hi. destruct (Nat.eqb_spec id i); [lia | exact IH].
Qed.

Lemma without_fresh (n id : nat) (l : list (nat * Suspended)) :
  ids_below n l -> n <= id -> without id l = l.
Proof.
  unfold ids_below, without. intros Hl Hid.
  induction Hl as [|[i k] l Hi _ IH]; cbn; [reflexivity|].
  cbn in Hi. destruct (Nat.eqb_spec id i); [lia | cbn; now rewrite IH].
Qed.

(** A submit with a file chosen: the start callback, then one request. *)
Lemma submit_page (p : Page) (f : File) :
  file (form p) = FileChosen f ->
  exists req resume,
    (forall net, resume net = resumed net (handleSubmit props (form p)))
    /\ handleSubmit props (form p) = Invoke OnStart (AwaitFetch req resume)
    /\ step p Submit
       = {| app := submitting; form := form p;
            sent := sent p ++ [req];
            in_flight := in_flight p ++ [(List.length (sent p), resume)] |}.
Proof.
  intros Hfile. cbn [step]. unfold handleSubmit. rewrite Hfile.
  cbn [call_onStart props onStart and_then analyzeFile].
  do 2 eexists. split; [|split; reflexivity].
  intros net. reflexivity.
Qed.

Lemma settle_page (p : Page) (id : nat) (resume : Suspended) (net : FetchOutcome) :
  suspended_at id (in_flight p) = Some resume ->
  step p (Settle id net)
  = drive (resume net)
      {| app := app p; form := form p; sent := sent p;
         in_flight := without id (in_flight p) |}.
Proof. intros H. cbn [step]. now rewrite H. Qed.

(** A submit followed by the settling of its request. *)
Lemma submit_then_settle (p : Page) (f : File) (net : FetchOutcome) :
  ids_below (List.length (sent p)) (in_flight p) ->
  file (form p) = FileChosen f ->
  app (run p [Submit; Settle (List.length (sent p)) net])
  = after_calls (resumed net (handleSubmit props (form p))) submitting.
Proof.
  intros Hids Hfile. unfold run. cbn [fold_left].
  destruct (submit_page p f Hfile) as (req & resume & Hres & _ & ->).
  rewrite (settle_page _ (List.length (sent p)) resume).
  - rewrite drive_app, Hres. reflexivity.
  - cbn [in_flight].
    rewrite (suspended_at_fresh _ _ _ _ Hids (Nat.le_refl _)).
    cbn. now rewrite Nat.eqb_refl.
Qed.

(* ================================================================= *)
(** ** One submission *)

(** C1. When the file cell is empty, a submit calls the error callback with
    the validation message and does nothing else: no start callback, no
    request; on the page the message is on display, [loading] is false and
    nothing has been sent or suspended. *)
Theorem C1_absent_file_fails_validation (p : Page) :
  file_absent (file (form p)) = true ->
  (forall (S : Type) (pr : Props S),
      handleSubmit pr (form p)
      = call_onError pr (JStr "Please choose a file to upload"))
  /\ handleSubmit props (form p)
     = Invoke (OnError (JStr "Please choose a file to upload")) (Return tt)
  /\ error (app (step p Submit)) = JStr "Please choose a file to upload"
  /\ shows_error (app (step p Submit)) = true
  /\ loading (app (step p Submit)) = false
  /\ sent (step p Submit) = sent p
  /\ in_flight (step p Submit) = in_flight p.
Proof.
  intros Habsent.
  assert (Hgen : forall (S : Type) (pr : Props S),
             handleSubmit pr (form p)
             = call_onError pr (JStr "Please choose a file to upload")).
  { intros S pr. unfold handleSubmit.
    destruct (file (form p)); [reflexivity | reflexivity | discriminate]. }
  split; [exact Hgen|].
  pose proof (Hgen AppState props) as Hb. cbn in Hb.
  split; [exact Hb|].
  cbn [step]. rewrite Hb. repeat split; reflexivity.
Qed.

Lemma C1_witness :
  file_absent (file (form start)) = true
  /\ loading (app (step start Submit)) = false
  /\ sent (step start Submit) = [].
Proof.
  split; [reflexivity|].
  destruct (C1_absent_file_fails_validation start eq_refl)
    as (_ & _ & _ & _ & Hl & Hs & _).
  split; assumption.
Defined.

(** C7. A submit with a file chosen calls the start callback and sends one
    request; whatever the three cells held before, [loading] is then true
    and [error] and [result] are both [null]. *)
Theorem C7_start_resets_to_submitting (p : Page) (f : File) :
  file (form p) = FileChosen f ->
  (forall s : AppState,
      App_onStart s = {| loading := true; result := JNull; error := JNull |})
  /\ (exists req resume,
         handleSubmit props (form p) = Invoke OnStart (AwaitFetch req resume)
         /\ sent (step p Submit) = (sent p ++ [req])%list)
  /\ app (step p Submit) = {| loading := true; result := JNull; error := JNull |}.
Proof.
  intros Hfile. split; [reflexivity|].
  destruct (submit_page p f Hfile) as (req & resume & _ & Hh & ->).
  split; [|reflexivity]. exists req, resume. split; [exact Hh | reflexivity].
Qed.

Lemma C7_witness :
  let f := {| name := "call.txt"; bytes := [] |} in
  let p := {| app := {| loading := false;
                        result := JObj [("summary", JStr "All good")];
                        error := JStr "Please choose a file to upload" |};
              form := {| inputType := "text"; file := FileChosen f |};
              sent := []; in_flight := [] |} in
  app (step p Submit) = {| loading := true; result := JNull; error := JNull |}.
Proof.
  cbv zeta.
  refine (proj2 (proj2 (C7_start_resets_to_submitting _ {| name := "call.txt"; bytes := [] |} _))).
  reflexivity.
Defined.

(** C4. For a response whose status is outside 200-299 and whose body reads
    as [body_text], [analyzeFile] returns [{ error: msg }] where [msg]
    contains the status in decimal and the body text; a submission that
    gets this response leaves [msg] in the error cell, with [loading] false
    and no report. *)
Theorem C4_server_error_message (res : Response) (body_text : string) :
  ok res = false ->
  text res = Normal body_text ->
  exists msg,
    (forall (C : Type) (fd : FormData),
        resumed (Resolves res) (@analyzeFile C fd) = Return (error_object msg))
    /\ contains (decimal (status res)) msg
    /\ contains body_text msg
    /\ forall (p : Page) (f : File),
         reachable p ->
         file (form p) = FileChosen f ->
         app (run p [Submit; Settle (List.length (sent p)) (Resolves res)])
         = {| loading := false; result := JNull; error := JStr msg |}.
Proof.
  intros Hok Htext.
  exists ("Server returned status " ++ decimal (status res) ++ ": " ++ body_text).
  assert (Hres : forall (C : Type) (fd : FormData),
             resumed (Resolves res) (@analyzeFile C fd)
             = Return (error_object ("Server returned status "
                                     ++ decimal (status res) ++ ": " ++ body_text))).
  { intros C fd. now apply server_failure_result. }
  split; [exact Hres|].
  split; [apply contains_middle|].
  split.
  - rewrite <- (append_assoc (decimal (status res)) ": " body_text).
    rewrite <- append_assoc. apply contains_end.
  - intros p f Hreach Hfile.
    rewrite (submit_then_settle p f _ (reachable_ids_below p Hreach) Hfile).
    rewrite (resumed_on_error_object props _ f _ _ Hfile (Hres Callback));
      [reflexivity | discriminate].
Qed.

Lemma C4_witness :
  exists msg,
    (forall (C : Type) (fd : FormData),
        resumed
          (Resolves {| status := 500; text := Normal "internal error";
                       json := Throw (mkError "Unexpected token i in JSON at position 0") |})
          (@analyzeFile C fd)
        = Return (error_object msg))
    /\ contains "500" msg
    /\ contains "internal error" msg.
Proof.
  destruct (C4_server_error_message
              {| status := 500; text := Normal "internal error";
                 json := Throw (mkError "Unexpected token i in JSON at position 0") |}
              "internal error" eq_refl eq_refl) as (msg & H1 & H2 & H3 & _).
  exists msg. repeat split; assumption.
Defined.

Lemma unreadable_failure_result (C : Type) (fd : FormData)
    (res : Response) (err : JsError) :
  ok res = false ->
  text res = Throw err ->
  resumed (Resolves res) (@analyzeFile C fd)
  = Return (error_object (str_or_else (message err) "Network error")).
Proof.
  intros Hok Htext. cbn [resumed analyzeFile bind]. now rewrite Hok, Htext.
Qed.

(** Every failure of [analyzeFile] is an [{ error }] object with a message
    that is not empty. *)
Lemma failure_result (net : FetchOutcome) :
  Failure net ->
  exists msg,
    msg <> ""
    /\ forall (C : Type) (fd : FormData),
         resumed net (@analyzeFile C fd) = Return (error_object msg).
Proof.
  intros [err | res body_text Hok Htext | res err Hok Htext | res err Hok Hjson].
  - exists (str_or_else (message err) "Network error"). split.
    + apply str_or_else_nonempty. discriminate.
    + intros C fd. reflexivity.
  - exists ("Server returned status " ++ decimal (status res) ++ ": " ++ body_text).
    split; [discriminate | intros C fd; now apply server_failure_result].
  - exists (str_or_else (message err) "Network error"). split.
    + apply str_or_else_nonempty. discriminate.
    + intros C fd. now apply unreadable_failure_result.
  - exists (str_or_else (message err) "Network error"). split.
    + apply str_or_else_nonempty. discriminate.
    + intros C fd. now apply parse_failure_result.
Qed.

(** C5, as the code has it. [analyzeFile] has one result shape for all its
    failures, an object whose only property is the string [error], never
    empty, and the submit handler passes that string to the error callback.
    The string is ["Server returned status <status>: <body>"] for a status
    outside 200-299 whose body text is read, and [err.message || 'Network
    error'] for the exception [err] of the one [catch] in the three other
    cases: a rejected [fetch], a body that does not parse, and a body whose
    text cannot be read. A response that cannot be parsed therefore gives
    the very result a transport failure with the same exception gives. *)
Theorem C5_failures_share_one_shape :
  (forall net : FetchOutcome,
      Failure net ->
      exists msg,
        msg <> ""
        /\ (forall (C : Type) (fd : FormData),
               resumed net (@analyzeFile C fd) = Return (error_object msg))
        /\ (forall (st : FormState) (f : File),
               file st = FileChosen f ->
               resumed net (handleSubmit props st)
               = Invoke (OnError (JStr msg)) (Return tt)))
  /\ (forall (C : Type) (fd : FormData) (res : Response) (body_text : string),
         ok res = false ->
         text res = Normal body_text ->
         resumed (Resolves res) (@analyzeFile C fd)
         = Return (error_object
                     ("Server returned status " ++ decimal (status res)
                      ++ ": " ++ body_text)))
  /\ (forall (C : Type) (fd : FormData) (err : JsError),
         resumed (Rejects err) (@analyzeFile C fd)
         = Return (error_object
                     (if String.eqb (message err) "" then "Network error"
                      else message err)))
  /\ (forall (C : Type) (fd : FormData) (res : Response) (err : JsError),
         ok res = true ->
         json res = Throw err ->
         resumed (Resolves res) (@analyzeFile C fd)
         = Return (error_object
                     (if String.eqb (message err) "" then "Network error"
                      else message err))
         /\ resumed (Resolves res) (@analyzeFile C fd)
            = resumed (Rejects err) (@analyzeFile C fd))
  /\ (forall (C : Type) (fd : FormData) (res : Response) (err : JsError),
         ok res = false ->
         text res = Throw err ->
         resumed (Resolves res) (@analyzeFile C fd)
         = Return (error_object
                     (if String.eqb (message err) "" then "Network error"
                      else message err))
         /\ resumed (Resolves res) (@analyzeFile C fd)
            = resumed (Rejects err) (@analyzeFile C fd)).
Proof.
  split; [|split; [|split; [|split]]].
  - intros net Hfail.
    destruct (failure_result net Hfail) as (msg & Hmsg & Hres).
    exists msg. split; [exact Hmsg|]. split; [exact Hres|].
    intros st f Hfile.
    now rewrite (resumed_on_error_object props st f net msg Hfile (Hres Callback) Hmsg).
  - intros C fd res body_text Hok Htext. now apply server_failure_result.
  - intros C fd err. reflexivity.
  - intros C fd res err Hok Hjson.
    rewrite (parse_failure_result C fd res err Hok Hjson). split; reflexivity.
  - intros C fd res err Hok Htext.
    rewrite (unreadable_failure_result C fd res err Hok Htext). split; reflexivity.
Qed.

Lemma C5_witness :
  let unparsable :=
    {| status := 200; text := Normal "<html>";
       json := Throw (mkError "Unexpected token < in JSON at position 0") |} in
  let failed := {| status := 500; text := Normal "internal error";
                   json := Throw (mkError "") |} in
  resumed (Resolves unparsable) (@analyzeFile Callback [])
  = resumed (Rejects (mkError "Unexpected token < in JSON at position 0"))
      (@analyzeFile Callback [])
  /\ resumed (Resolves unparsable) (@analyzeFile Callback [])
     = Return (error_object "Unexpected token < in JSON at position 0")
  /\ resumed (Resolves failed) (@analyzeFile Callback [])
     = Return (error_object "Server returned status 500: internal error")
  /\ resumed (Rejects (mkError "")) (@analyzeFile Callback [])
     = Return (error_object "Network error").
Proof.
  cbv zeta.
  destruct C5_failures_share_one_shape as (_ & Hserver & Htransport & Hparse & _).
  split; [|split; [|split]].
  - exact (proj2 (Hparse Callback []
                    {| status := 200; text := Normal "<html>";
                       json := Throw (mkError "Unexpected token < in JSON at position 0") |}
                    (mkError "Unexpected token < in JSON at position 0")
                    eq_refl eq_refl)).
  - exact (proj1 (Hparse Callback []
                    {| status := 200; text := Normal "<html>";
                       json := Throw (mkError "Unexpected token < in JSON at position 0") |}
                    (mkError "Unexpected token < in JSON at position 0")
                    eq_refl eq_refl)).
  - exact (Hserver Callback []
             {| status := 500; text := Normal "internal error";
                json := Throw (mkError "") |}
             "internal error" eq_refl eq_refl).
  - exact (Htransport Callback [] (mkError "")).
Defined.

(** C5, as stated, fails: a transport failure and a parse failure whose
    exceptions carry the same message give equal results, so nothing in the
    result tells them apart. *)
Lemma C5_transport_and_parse_failure_coincide :
  let transport := Rejects (mkError "connection lost") in
  let unparsable :=
    {| status := 200; text := Normal "<html>";
       json := Throw (mkError "connection lost") |} in
  Failure transport
  /\ ok unparsable = true
  /\ json unparsable = Throw (mkError "connection lost")
  /\ resumed transport (@analyzeFile Callback [])
     = resumed (Resolves unparsable) (@analyzeFile Callback [])
  /\ resumed transport (@analyzeFile Callback [])
     = Return (error_object "connection lost").
Proof.
  cbv zeta. repeat split. constructor.
Qed.

(** C10. When the status is in 200-299 and the parsed body has a truthy
    [error] property, [analyzeFile] returns the body, and the handler calls
    the error callback with that property's value and never the result
    callback; on the page the value becomes the error and no report is
    held. *)
Theorem C10_error_field_in_success_body
    (res : Response) (data e : JsVal) :
  ok res = true ->
  json res = Normal data ->
  get data "error" = Normal e ->
  truthy e = true ->
  (forall (C : Type) (fd : FormData),
      resumed (Resolves res) (@analyzeFile C fd) = Return data)
  /\ (forall (S : Type) (pr : Props S) (st : FormState) (f : File),
         file st = FileChosen f ->
         resumed (Resolves res) (handleSubmit pr st) = call_onError pr e)
  /\ (forall (st : FormState) (f : File),
         file st = FileChosen f ->
         resumed (Resolves res) (handleSubmit props st)
         = Invoke (OnError e) (Return tt))
  /\ forall (p : Page) (f : File),
       reachable p ->
       file (form p) = FileChosen f ->
       app (run p [Submit; Settle (List.length (sent p)) (Resolves res)])
       = {| loading := false; result := JNull; error := e |}.
Proof.
  intros Hok Hjson Hget Htruthy.
  assert (Hdata : forall (C : Type) (fd : FormData),
             resumed (Resolves res) (@analyzeFile C fd) = Return data).
  { intros C fd. now apply success_result. }
  assert (Hgen : forall (S : Type) (pr : Props S) (st : FormState) (f : File),
             file st = FileChosen f ->
             resumed (Resolves res) (handleSubmit pr st) = call_onError pr e).
  { intros S pr st f Hfile.
    rewrite (handleSubmit_resumed pr st f _ data Hfile (Hdata Callback)).
    now rewrite Hget, Htruthy. }
  split; [exact Hdata|]. split; [exact Hgen|]. split.
  - intros st f Hfile. now rewrite (Hgen AppState props st f Hfile).
  - intros p f Hreach Hfile.
    rewrite (submit_then_settle p f _ (reachable_ids_below p Hreach) Hfile).
    now rewrite (Hgen AppState props (form p) f Hfile).
Qed.

Lemma C10_witness :
  let data := JObj [("error", JStr "unsupported file"); ("summary", JStr "n/a")] in
  let res := {| status := 200; text := Normal "{...}"; json := Normal data |} in
  let st := {| inputType := "text";
               file := FileChosen {| name := "call.txt"; bytes := [] |} |} in
  resumed (Resolves res) (handleSubmit props st)
  = Invoke (OnError (JStr "unsupported file")) (Return tt).
Proof.
  cbv zeta.
  refine (proj1 (proj2 (proj2 (C10_error_field_in_success_body _ _ _ _ _ _ _))) _
            {| name := "call.txt"; bytes := [] |} _);
    reflexivity.
Defined.

(* ================================================================= *)
(** ** The lifecycle across submissions *)

(** C6, as the code has it. On every page that can be reached, while
    [loading] is true [error] and [result] are both [null], so the progress
    line is never on display together with an error or a report. The error
    callback writes [error] and [loading] only and the result callback
    writes [result] and [loading] only: neither clears what the other cell
    holds. *)
Theorem C6_loading_excludes_error_and_report (p : Page) :
  reachable p ->
  (loading (app p) = true ->
   error (app p) = JNull /\ result (app p) = JNull
   /\ shows_error (app p) = false /\ shows_result (app p) = false)
  /\ (forall err,
         App_onError err (app p)
         = {| loading := false; result := result (app p); error := err |})
  /\ (forall res,
         App_onResult res (app p)
         = {| loading := false; result := res; error := error (app p) |}).
Proof.
  intros Hreach. split; [|split; reflexivity].
  intros Hl. destruct (reachable_exclusive p Hreach Hl) as [He Hr].
  unfold shows_error, shows_result. rewrite He, Hr. repeat split.
Qed.

Lemma C6_witness :
  let f := {| name := "call.txt"; bytes := [] |} in
  let p := run start [SelectFile (FileChosen f); Submit] in
  loading (app p) = true /\ error (app p) = JNull /\ result (app p) = JNull.
Proof.
  cbv zeta.
  assert (Hreach : reachable
            (run start [SelectFile (FileChosen {| name := "call.txt"; bytes := [] |});
                        Submit])).
  { eexists. reflexivity. }
  destruct (proj1 (C6_loading_excludes_error_and_report _ Hreach) eq_refl)
    as (He & Hr & _).
  repeat split; assumption.
Defined.

(** C6, as stated, fails: after a report has arrived, a submit with the file
    cleared puts the validation message next to the old report, which stays
    in [result] and stays on display. *)
Lemma C6_error_beside_old_report :
  let f := {| name := "call.txt"; bytes := [] |} in
  let answer := Resolves {| status := 200; text := Normal "{...}"; json := Normal all_good |} in
  let p := run start [SelectFile (FileChosen f); Submit; Settle 0 answer;
                      SelectFile FileUndefined; Submit] in
  reachable p
  /\ app p = {| loading := false; result := all_good;
                error := JStr "Please choose a file to upload" |}
  /\ shows_error (app p) = true
  /\ shows_result (app p) = true.
Proof.
  cbv zeta. split; [eexists; reflexivity|].
  repeat split.
Qed.

(** *** Two submissions in flight *)

Lemma select_type (p : Page) (t : string) :
  step p (SelectType t)
  = {| app := app p; form := {| inputType := t; file := file (form p) |};
       sent := sent p; in_flight := in_flight p |}.
Proof. reflexivity. Qed.

Lemma select_file (p : Page) (f : FileCell) :
  step p (SelectFile f)
  = {| app := app p; form := {| inputType := inputType (form p); file := f |};
       sent := sent p; in_flight := in_flight p |}.
Proof. reflexivity. Qed.

(** On a page where A was submitted and then B, B's request settles first
    and A's second: the cells are what A's callback makes of what B's
    callback made of the state B's submit left. *)
Lemma overlapping_run (p : Page) (fA fB : File) (tB : string)
    (netA netB : FetchOutcome) :
  ids_below (List.length (sent p)) (in_flight p) ->
  file (form p) = FileChosen fA ->
  app (run p [Submit; SelectType tB; SelectFile (FileChosen fB); Submit;
              Settle (S (List.length (sent p))) netB;
              Settle (List.length (sent p)) netA])
  = after_calls (resumed netA (handleSubmit props (form p)))
      (after_calls
         (resumed netB
            (handleSubmit props {| inputType := tB; file := FileChosen fB |}))
         submitting).
Proof.
  intros Hids HfA. unfold run. cbn [fold_left].
  destruct (submit_page p fA HfA) as (reqA & kA & HkA & _ & ->).
  rewrite select_type, select_file.
  cbn [app form sent in_flight inputType file].
  match goal with
  | |- context [step ?q Submit] =>
      destruct (submit_page q fB eq_refl) as (reqB & kB & HkB & _ & ->)
  end.
  cbn [app form sent in_flight inputType file] in *.
  rewrite length_app. cbn [List.length].
  replace (List.length (sent p) + 1) with (S (List.length (sent p))) by lia.
  set (n := List.length (sent p)) in *.
  destruct (handler_verdict {| inputType := tB; file := FileChosen fB |} fB netB eq_refl)
    as [vB HvB].
  destruct (handler_verdict (form p) fA netA HfA) as [vA HvA].
  apply verdict_inv in HvA, HvB.
  rewrite (settle_page _ (S n) kB netB).
  2:{ cbn [in_flight]. rewrite <- app_assoc.
      rewrite (suspended_at_fresh n (S n) _ _ Hids) by lia.
      cbn [suspended_at List.app].
      replace (Nat.eqb (S n) n) with false by (symmetry; apply Nat.eqb_neq; lia).
      now rewrite Nat.eqb_refl. }
  rewrite HkB, HvB. cbn [drive app form sent in_flight].
  rewrite (settle_page _ n kA netA).
  2:{ cbn [in_flight]. unfold without. rewrite !filter_app.
      fold (without (S n) (in_flight p)).
      rewrite (without_fresh n (S n) _ Hids) by lia.
      rewrite <- app_assoc.
      rewrite (suspended_at_fresh n n _ _ Hids) by lia.
      cbn [filter fst].
      replace (Nat.eqb (S n) n) with false by (symmetry; apply Nat.eqb_neq; lia).
      rewrite Nat.eqb_refl. cbn [negb List.app suspended_at].
      now rewrite Nat.eqb_refl. }
  rewrite HkA, HvA. cbn [drive app after_calls]. reflexivity.
Qed.

(** C8, as the code has it. With A submitted, then B, and B settling before
    A, each completion writes its own cell whatever request it belongs to: a
    report goes to [result], a failure to [error], and [loading] becomes
    false. The cell A writes holds A's value in the end; B's value is
    overwritten when B ended the way A did, and stays in the other cell, on
    display beside A's, when one of the two failed and the other did not. *)
Theorem C8_last_completion_writes_its_cell
    (p : Page) (fA fB : File) (tB : string) (netA netB : FetchOutcome) :
  reachable p ->
  file (form p) = FileChosen fA ->
  let idA := List.length (sent p) in
  let idB := S idA in
  let stB := {| inputType := tB; file := FileChosen fB |} in
  let final := app (run p [Submit; SelectType tB; SelectFile (FileChosen fB);
                           Submit; Settle idB netB; Settle idA netA]) in
  match verdict (resumed netA (handleSubmit props (form p))),
        verdict (resumed netB (handleSubmit props stB)) with
  | Some (Succeeded reportA), Some (Succeeded _) =>
      final = {| loading := false; result := reportA; error := JNull |}
  | Some (Failed errA), Some (Failed _) =>
      final = {| loading := false; result := JNull; error := errA |}
  | Some (Succeeded reportA), Some (Failed errB) =>
      final = {| loading := false; result := reportA; error := errB |}
  | Some (Failed errA), Some (Succeeded reportB) =>
      final = {| loading := false; result := reportB; error := errA |}
  | _, _ => False
  end.
Proof.
  intros Hreach HfA. cbv zeta.
  rewrite (overlapping_run p fA fB tB netA netB (reachable_ids_below p Hreach) HfA).
  destruct (handler_verdict {| inputType := tB; file := FileChosen fB |} fB netB eq_refl)
    as [vB HvB].
  destruct (handler_verdict (form p) fA netA HfA) as [vA HvA].
  rewrite HvA, HvB. apply verdict_inv in HvA, HvB. rewrite HvA, HvB.
  destruct vA, vB; reflexivity.
Qed.

Lemma C8_witness :
  let fA := {| name := "a.txt"; bytes := [] |} in
  let fB := {| name := "b.txt"; bytes := [] |} in
  let answer r := Resolves {| status := 200; text := Normal "{...}"; json := Normal r |} in
  let reportA := JObj [("summary", JStr "from A")] in
  let reportB := JObj [("summary", JStr "from B")] in
  app (run start [SelectFile (FileChosen fA);
                  Submit; SelectType "audio"; SelectFile (FileChosen fB); Submit;
                  Settle 1 (answer reportB); Settle 0 (answer reportA)])
  = {| loading := false; result := reportA; error := JNull |}.
Proof.
  cbv zeta.
  assert (Hreach : reachable
            (run start [SelectFile (FileChosen {| name := "a.txt"; bytes := [] |})])).
  { eexists. reflexivity. }
  exact (C8_last_completion_writes_its_cell _
           {| name := "a.txt"; bytes := [] |} {| name := "b.txt"; bytes := [] |}
           "audio"
           (Resolves {| status := 200; text := Normal "{...}";
                        json := Normal (JObj [("summary", JStr "from A")]) |})
           (Resolves {| status := 200; text := Normal "{...}";
                        json := Normal (JObj [("summary", JStr "from B")]) |})
           Hreach eq_refl).
Defined.

(** C8, as stated, fails: when B has failed and A then succeeds, the final
    page shows A's report and B's error message together. *)
Lemma C8_stale_error_beside_report :
  let fA := {| name := "a.txt"; bytes := [] |} in
  let fB := {| name := "b.txt"; bytes := [] |} in
  let reportA := JObj [("summary", JStr "from A")] in
  let answerA := Resolves {| status := 200; text := Normal "{...}"; json := Normal reportA |} in
  let answerB := Resolves {| status := 500; text := Normal "internal error";
                             json := Throw (mkError "Unexpected token i") |} in
  let p := run start [SelectFile (FileChosen fA); Submit;
                      SelectFile (FileChosen fB); Submit;
                      Settle 1 answerB; Settle 0 answerA] in
  sent p = [{| url := "http://localhost:8000/analyze"; method := "POST";
               body := [("input_type", FVString "text"); ("file", FVFile fA "a.txt")] |};
            {| url := "http://localhost:8000/analyze"; method := "POST";
               body := [("input_type", FVString "text"); ("file", FVFile fB "b.txt")] |}]
  /\ app p = {| loading := false; result := reportA;
                error := JStr "Server returned status 500: internal error" |}
  /\ shows_result (app p) = true
  /\ shows_error (app p) = true.
Proof.
  cbv zeta. repeat split.
Qed.

(* ================================================================= *)
(** ** Rounding *)

(** *** The float of an integer below 2^53 is exact *)

(** Shifting a mantissa left by [k] adds [k] digits and multiplies by 2^k. *)
Lemma iter_xO_digits (p k : positive) :
  digits2_pos (Pos.iter xO p k) = (digits2_pos p + k)%positive.
Proof.
  induction k as [|k IH] using Pos.peano_ind.
  - cbn. now rewrite Pos.add_1_r.
  - rewrite Pos.iter_succ. cbn [digits2_pos]. rewrite IH. lia.
Qed.

Lemma iter_xO_value (p k : positive) :
  Z.pos (Pos.iter xO p k) = (Z.pos p * 2 ^ Z.pos k)%Z.
Proof.
  induction k as [|k IH] using Pos.peano_ind.
  - cbn. lia.
  - rewrite Pos.iter_succ, Pos2Z.inj_xO, IH, Pos2Z.inj_succ.
    rewrite Z.pow_succ_r by lia. ring.
Qed.

(** A positive number of [d] binary digits lies in [2^(d-1), 2^d). *)
Lemma digits2_pos_bounds (p : positive) :
  (2 ^ (Z.pos (digits2_pos p) - 1) <= Z.pos p < 2 ^ Z.pos (digits2_pos p))%Z.
Proof.
  induction p as [p IH | p IH |]; cbn [digits2_pos].
  - rewrite Pos2Z.inj_succ, (Pos2Z.inj_xI p).
    replace (Z.succ (Z.pos (digits2_pos p)) - 1)%Z
      with (Z.succ (Z.pos (digits2_pos p) - 1)) by lia.
    rewrite !Z.pow_succ_r by lia.
    destruct IH as [IH1 IH2]. revert IH1 IH2.
    generalize (2 ^ (Z.pos (digits2_pos p) - 1))%Z (2 ^ Z.pos (digits2_pos p))%Z.
    lia.
  - rewrite Pos2Z.inj_succ, (Pos2Z.inj_xO p).
    replace (Z.succ (Z.pos (digits2_pos p)) - 1)%Z
      with (Z.succ (Z.pos (digits2_pos p) - 1)) by lia.
    rewrite !Z.pow_succ_r by lia.
    destruct IH as [IH1 IH2]. revert IH1 IH2.
    generalize (2 ^ (Z.pos (digits2_pos p) - 1))%Z (2 ^ Z.pos (digits2_pos p))%Z.
    lia.
  - cbn. lia.
Qed.

Lemma digits2_pos_le (p : positive) (d : Z) :
  (0 <= d)%Z -> (Z.pos p < 2 ^ d)%Z -> (Z.pos (digits2_pos p) <= d)%Z.
Proof.
  intros Hd Hp. destruct (digits2_pos_bounds p) as [Hlo _].
  assert (H : (2 ^ (Z.pos (digits2_pos p) - 1) < 2 ^ d)%Z) by lia.
  apply Z.pow_lt_mono_r_iff in H; lia.
Qed.

(** A mantissa of 53 digits with an exponent in range is kept as it is. *)
Lemma binary_round_aux_exact (s : bool) (m : positive) (e : Z) :
  Z.pos (digits2_pos m) = 53%Z ->
  (-1074 <= e <= 971)%Z ->
  binary_round_aux prec emax s (Z.pos m) e loc_Exact = S754_finite s m e.
Proof.
  intros Hd He.
  unfold binary_round_aux, shr_fexp, shr, fexp, emin, Zdigits2, shr_record_of_loc.
  rewrite Hd.
  replace (Z.max (53 + e - prec) (3 - emax - prec) - e)%Z with 0%Z
    by (unfold prec, emax; lia).
  cbn [shr_m round_nearest_even loc_of_shr_record Zdigits2].
  rewrite Hd.
  replace (Z.max (53 + e - prec) (3 - emax - prec) - e)%Z with 0%Z
    by (unfold prec, emax; lia).
  cbn [shr_m].
  replace (e <=? emax - prec)%Z with true; [reflexivity|].
  symmetry. apply Z.leb_le. unfold prec, emax. lia.
Qed.

(** An integer below 2^53 is normalised without loss: its mantissa is
    shifted to 53 digits and the exponent compensates. *)
Lemma binary_round_integer (s : bool) (p : positive) :
  (Z.pos p < 2 ^ 53)%Z ->
  exists m e,
    binary_round prec emax s p 0 = S754_finite s m e
    /\ valid_binary (S754_finite s m e) = true
    /\ (-52 <= e <= 0)%Z
    /\ Z.pos m = (Z.pos p * 2 ^ (- e))%Z.
Proof.
  intros Hp.
  pose proof (digits2_pos_le p 53 ltac:(lia) Hp) as Hd.
  assert (Hd1 : (1 <= Z.pos (digits2_pos p))%Z) by lia.
  unfold binary_round, shl_align, fexp, emin.
  replace (Z.max (Z.pos (digits2_pos p) + 0 - prec) (3 - emax - prec) - 0)%Z
    with (Z.pos (digits2_pos p) - 53)%Z by (unfold prec, emax; lia).
  replace (Z.max (Z.pos (digits2_pos p) + 0 - prec) (3 - emax - prec))%Z
    with (Z.pos (digits2_pos p) - 53)%Z by (unfold prec, emax; lia).
  destruct (Z.pos (digits2_pos p) - 53)%Z as [|k|k] eqn:Hk; [|lia|].
  - exists p, 0%Z. rewrite binary_round_aux_exact by lia.
    repeat split; try lia.
    unfold valid_binary, SpecFloat.valid_binary, bounded, canonical_mantissa,
      fexp, emin, prec, emax.
    replace (Z.pos (digits2_pos p)) with 53%Z by lia. reflexivity.
  - assert (Hdk : Z.pos (digits2_pos (Pos.iter xO p k)) = 53%Z).
    { rewrite iter_xO_digits. lia. }
    exists (Pos.iter xO p k), (Z.neg k).
    rewrite binary_round_aux_exact by lia.
    split; [reflexivity|]. split; [|split; [lia|]].
    + unfold valid_binary, SpecFloat.valid_binary, bounded, canonical_mantissa,
        fexp, emin, prec, emax.
      rewrite Hdk. apply andb_true_iff. split; [apply Z.eqb_eq | apply Z.leb_le]; lia.
    + rewrite iter_xO_value. reflexivity.
Qed.

Lemma scaled_value (s : bool) (p m : positive) (e : Z) :
  (-52 <= e <= 0)%Z ->
  Z.pos m = (Z.pos p * 2 ^ (- e))%Z ->
  (match e with
   | Z.neg k => Qmake (signed s m) (2 ^ k)
   | _ => inject_Z (signed s m * 2 ^ e)
   end == inject_Z (signed s p))%Q.
Proof.
  intros He Hm.
  assert (Hs : signed s m = (signed s p * 2 ^ (- e))%Z).
  { destruct s; cbn [signed]; [|exact Hm].
    rewrite <- !Pos2Z.opp_pos, Hm. ring. }
  destruct e as [|k|k]; try lia.
  - rewrite Hs. change (2 ^ (- 0))%Z with 1%Z. change (2 ^ 0)%Z with 1%Z.
    now rewrite !Z.mul_1_r.
  - unfold Qeq. cbn [Qnum Qden inject_Z].
    rewrite Hs, Pos2Z.inj_pow. cbn [Z.opp]. ring.
Qed.

(** [float_of_Z] is exact below 2^53. *)
Lemma float_of_Z_value (n : Z) :
  (- 2 ^ 53 < n < 2 ^ 53)%Z ->
  exists q, float_value (float_of_Z n) = Some q /\ (q == inject_Z n)%Q.
Proof.
  intros Hn. unfold float_value, float_of_Z.
  destruct n as [|p|p]; cbn [binary_normalize].
  - exists 0%Q. split; reflexivity.
  - destruct (binary_round_integer false p ltac:(lia)) as (m & e & -> & Hv & He & Hm).
    rewrite (Prim2SF_SF2Prim _ Hv). eexists. split; [reflexivity|].
    exact (scaled_value false p m e He Hm).
  - destruct (binary_round_integer true p ltac:(lia)) as (m & e & -> & Hv & He & Hm).
    rewrite (Prim2SF_SF2Prim _ Hv). eexists. split; [reflexivity|].
    exact (scaled_value true p m e He Hm).
Qed.

Lemma signed_bound (s : bool) (m : positive) (b : Z) :
  (Z.pos m < b)%Z -> (- b < signed s m < b)%Z.
Proof. destruct s; cbn [signed]; lia. Qed.

(** A finite float that is not integral has a negative exponent, and its
    mantissa is below 2^53. *)
Lemma non_integral_parts (y : float) (q : Q) :
  float_value y = Some q ->
  is_integral y = false ->
  exists s m k, q = Qmake (signed s m) (2 ^ k) /\ (Z.pos m < 2 ^ 53)%Z.
Proof.
  unfold is_integral. intros Hq. rewrite Hq. revert Hq. unfold float_value.
  pose proof (Prim2SF_valid y) as Hv.
  destruct (Prim2SF y) as [s | s | | s m e]; try discriminate.
  - intros [= <-]. discriminate.
  - destruct e as [|k|k].
    + intros [= <-]. now rewrite Qfloor_Z, Qeq_bool_refl.
    + intros [= <-]. now rewrite Qfloor_Z, Qeq_bool_refl.
    + intros [= <-] _. exists s, m, k. split; [reflexivity|].
      unfold valid_binary, SpecFloat.valid_binary, bounded, canonical_mantissa,
        fexp, emin, prec, emax in Hv.
      apply andb_true_iff in Hv. destruct Hv as [Hc _]. apply Z.eqb_eq in Hc.
      destruct (digits2_pos_bounds m) as [_ Hm].
      assert (Hd : (Z.pos (digits2_pos m) <= 53)%Z) by lia.
      apply (Z.lt_le_trans _ _ _ Hm). apply Z.pow_le_mono_r; lia.
Qed.

(** So its rounding is below 2^53 in magnitude. *)
Lemma round_half_up_bound (a : Z) (k : positive) :
  (- 2 ^ 53 < a < 2 ^ 53)%Z ->
  (- 2 ^ 53 < round_half_up (a # 2 ^ k) < 2 ^ 53)%Z.
Proof.
  intros Ha. unfold round_half_up, Qfloor, Qplus. cbn [Qnum Qden].
  assert (HD : (2 <= Z.pos (2 ^ k))%Z).
  { rewrite Pos2Z.inj_pow. change 2%Z with (2 ^ 1)%Z at 1.
    apply Z.pow_le_mono_r; lia. }
  rewrite Pos2Z.inj_mul. revert HD. generalize (Z.pos (2 ^ k)). intros D HD.
  split.
  - apply Z.lt_le_trans with (- 2 ^ 53 + 1)%Z; [lia|].
    apply Z.div_le_lower_bound; lia.
  - apply Z.div_lt_upper_bound; lia.
Qed.

(** *** Rounding half up *)

Lemma Qfloor_unit (y : Q) : (0 <= y)%Q -> (y < 1)%Q -> Qfloor y = 0%Z.
Proof.
  intros H0 H1.
  pose proof (Qfloor_le y) as Hlo. pose proof (Qlt_floor y) as Hhi.
  assert (Hl : (inject_Z (Qfloor y) < inject_Z 1)%Q).
  { change (inject_Z 1) with 1%Q. lra. }
  assert (Hh : (inject_Z 0 < inject_Z (Qfloor y + 1))%Q).
  { change (inject_Z 0) with 0%Q. lra. }
  rewrite <- Zlt_Qlt in Hl, Hh. lia.
Qed.

Lemma round_half_up_integer (k : Z) : round_half_up (inject_Z k) = k.
Proof.
  unfold round_half_up, Qfloor, Qplus, inject_Z. cbn.
  rewrite Z.div_add_l by discriminate. change (1 / 2)%Z with 0%Z. lia.
Qed.

Lemma Qlt_bool_lt (a b : Q) : Qlt_bool a b = true -> (a < b)%Q.
Proof.
  unfold Qlt_bool. intros H. apply negb_true_iff in H.
  apply Qnot_le_lt. intros Hle. apply Qle_bool_iff in Hle. congruence.
Qed.

(** The rounding of [round_half_up] is to the nearest integer, up on a tie. *)
Lemma round_half_up_nearest (q : Q) :
  (inject_Z (round_half_up q) - (1 # 2) <= q)%Q
  /\ (q < inject_Z (round_half_up q) + (1 # 2))%Q.
Proof.
  unfold round_half_up.
  pose proof (Qfloor_le (q + (1 # 2))) as Hlo.
  pose proof (Qlt_floor (q + (1 # 2))) as Hhi.
  rewrite inject_Z_plus in Hhi. change (inject_Z 1) with 1%Q in Hhi.
  split; lra.
Qed.

(** [Math.round] of a finite float is the float whose exact value is the
    float's value rounded half up. *)
Lemma Math_round_value (y : float) (q : Q) :
  float_value y = Some q ->
  exists q', float_value (Math_round y) = Some q'
             /\ (q' == inject_Z (round_half_up q))%Q.
Proof.
  intros Hq. unfold Math_round. rewrite Hq.
  destruct (is_integral y) eqn:Hint.
  - exists q. split; [exact Hq|].
    unfold is_integral in Hint. rewrite Hq in Hint.
    apply Qeq_bool_eq in Hint.
    rewrite (Qfloor_comp _ _ (Qplus_comp _ _ (Qeq_sym _ _ Hint) _ _ (Qeq_refl (1 # 2)))
             : round_half_up q = round_half_up (inject_Z (Qfloor q))).
    rewrite round_half_up_integer. now symmetry.
  - destruct (Qlt_bool 0 q && Qlt_bool q (1 # 2)) eqn:Hpos.
    + apply andb_true_iff in Hpos. destruct Hpos as [H0 H1].
      apply Qlt_bool_lt in H0, H1.
      exists 0%Q. split; [reflexivity|].
      unfold round_half_up. rewrite Qfloor_unit by lra. reflexivity.
    + destruct (Qlt_bool q 0 && Qle_bool (- (1 # 2)) q) eqn:Hneg.
      * apply andb_true_iff in Hneg. destruct Hneg as [H0 H1].
        apply Qlt_bool_lt in H0. apply Qle_bool_iff in H1.
        exists 0%Q. split; [reflexivity|].
        unfold round_half_up. rewrite Qfloor_unit by lra. reflexivity.
      * destruct (non_integral_parts y q Hq Hint) as (s & m & k & -> & Hm).
        apply float_of_Z_value, round_half_up_bound, signed_bound, Hm.
Qed.

(* ================================================================= *)
(** ** The presenter *)

(** Induction on values, through the elements of arrays. *)
Lemma JsVal_nested_ind (P : JsVal -> Prop) :
  P JUndefined -> P JNull -> (forall b, P (JBool b)) ->
  (forall x, P (JNum x)) -> (forall s, P (JStr s)) ->
  (forall items, Forall P items -> P (JArr items)) ->
  (forall props, P (JObj props)) ->
  forall v, P v.
Proof.
  intros Hu Hn Hb Hx Hs Ha Ho.
  fix IH 1.
  intros [ | | b | x | s | items | props];
    [exact Hu | exact Hn | apply Hb | apply Hx | apply Hs | | apply Ho].
  apply Ha. revert items.
  fix IHitems 1. intros [|i rest]; constructor; [apply IH | apply IHitems].
Qed.

Section PresenterFacts.

Import Presenter.

Variable NumberToString : float -> string.
Variable StringToNumber : string -> float.

Lemma strings_of_cases (element : JsVal -> Completion string) (items : list JsVal) :
  Forall (fun i => settles i (element i)) items ->
  (forallb convertible items = true
   /\ exists parts, strings_of element items = Normal parts)
  \/ (forallb convertible items = false
      /\ strings_of element items = Throw type_error_primitive).
Proof.
  induction 1 as [|i rest Hi _ IH]; cbn [forallb strings_of].
  - left. split; [reflexivity|]. now exists [].
  - destruct Hi as [[-> [p ->]] | [-> ->]]; cbn [bind andb];
      [|right; split; reflexivity].
    destruct IH as [[-> [ps ->]] | [-> ->]]; cbn [bind];
      [left | right]; split; try reflexivity.
    now exists (p :: ps).
Qed.

Lemma String_settles (v : JsVal) : settles v (String_ NumberToString v).
Proof.
  induction v as [ | | b | x | s | items IH | props] using JsVal_nested_ind;
    try (left; split; [reflexivity | eexists; reflexivity]).
  - left. split; [reflexivity|]. destruct b; eexists; reflexivity.
  - unfold settles. cbn [String_ convertible].
    destruct (strings_of_cases
                (fun i => match i with
                          | JUndefined | JNull => Normal ""
                          | _ => String_ NumberToString i
                          end) items) as [[Hc [parts Hp]] | [Hc Hp]].
    + eapply Forall_impl; [|exact IH]. intros i Hi.
      destruct i; try exact Hi; left; split; try reflexivity; now eexists.
    + left. split; [exact Hc|]. rewrite Hp. now eexists.
    + right. split; [exact Hc|]. rewrite Hp. reflexivity.
  - unfold settles. cbn [String_ convertible].
    destruct (has_own "toString" props); [right | left]; split; try reflexivity.
    now eexists.
Qed.

Lemma ToNumber_settles (v : JsVal) :
  settles v (ToNumber NumberToString StringToNumber v).
Proof.
  destruct v as [ | | b | x | s | items | props];
    try (left; split; [reflexivity | eexists; reflexivity]).
  - left. split; [reflexivity|]. destruct b; eexists; reflexivity.
  - unfold ToNumber.
    destruct (String_settles (JArr items)) as [[Hc [s ->]] | [Hc ->]];
      [left | right]; split; try exact Hc; try reflexivity. now eexists.
  - unfold ToNumber.
    destruct (String_settles (JObj props)) as [[Hc [s ->]] | [Hc ->]];
      [left | right]; split; try exact Hc; try reflexivity. now eexists.
Qed.

Lemma default_to_convertible (v : JsVal) :
  convertible (default_to (JNum 0) v) = convertible v.
Proof. destruct v; reflexivity. Qed.

Lemma or_else_convertible (v : JsVal) :
  convertible (or_else v (JNum 0)) = convertible v.
Proof.
  unfold or_else. destruct (truthy v) eqn:Ht; [reflexivity|].
  destruct v; try reflexivity; discriminate Ht.
Qed.

Lemma percent_of_settles (v : JsVal) :
  settles v (percent_of NumberToString StringToNumber v).
Proof.
  unfold percent_of. cbv zeta.
  destruct (ToNumber_settles (default_to (JNum 0) v)) as [[Hc [n ->]] | [Hc ->]];
    rewrite default_to_convertible in Hc; [left | right];
    split; try exact Hc; try reflexivity.
  now eexists.
Qed.

Lemma get_truthy (data : JsVal) (k : string) :
  truthy data = true -> get data k = Normal (field data k).
Proof. destruct data; cbn; intros H; try discriminate H; reflexivity. Qed.

Lemma get_defaulted (v : JsVal) (k : string) :
  get (default_to (JObj []) v) k
  = if is_null v then Throw (type_error_read "null" k) else Normal (field v k).
Proof. destruct v; reflexivity. Qed.

(** The render of [ResultCard] in full: nothing for a falsy [data]; then,
    in the order of the JSX, a [TypeError] for a [null] [metadata], one for
    a [null] [risk_analysis], what [String] throws on the risk flag, a
    [TypeError] for a [null] [advanced_analysis], what [SummaryGraph]
    throws on the risk score; the card otherwise. *)
Lemma ResultCard_cases (data : JsVal) :
  Presenter.ResultCard NumberToString StringToNumber data
  = if negb (truthy data) then Normal None
    else if is_null (field data "metadata")
         then Throw (type_error_read "null" "input_type")
    else if is_null (field data "risk_analysis")
         then Throw (type_error_read "null" "risk_detected")
    else risk_text <- String_ NumberToString
                        (nested data "risk_analysis" "risk_detected") ;;
         if is_null (field data "advanced_analysis")
         then Throw (type_error_read "null" "call_outcome")
         else percent <- percent_of NumberToString StringToNumber
                           (or_else (nested data "advanced_analysis" "risk_score")
                                    (JNum 0)) ;;
              Normal (Some (card_of NumberToString data risk_text percent)).
Proof.
  unfold Presenter.ResultCard, Presenter.SummaryGraph, nested.
  destruct (truthy data) eqn:Ht; cbn [negb]; [|reflexivity].
  rewrite !(get_truthy data _ Ht). cbn [bind].
  rewrite !get_defaulted.
  destruct (is_null (field data "metadata")); [reflexivity|].
  destruct (is_null (field data "risk_analysis")); [reflexivity|].
  cbn [bind].
  destruct (String_ NumberToString (field (field data "risk_analysis") "risk_detected"));
    [|reflexivity].
  cbn [bind].
  destruct (is_null (field data "advanced_analysis")); [reflexivity|].
  cbn [bind].
  destruct (percent_of NumberToString StringToNumber
              (or_else (field (field data "advanced_analysis") "risk_score") (JNum 0)));
    reflexivity.
Qed.

(** A card that is built is [card_of] for the string of the flag and the
    percentage of the score. *)
Lemma ResultCard_card (data : JsVal) (card : Card) :
  Presenter.ResultCard NumberToString StringToNumber data = Normal (Some card) ->
  exists risk_text percent,
    String_ NumberToString (nested data "risk_analysis" "risk_detected")
    = Normal risk_text
    /\ percent_of NumberToString StringToNumber
         (or_else (nested data "advanced_analysis" "risk_score") (JNum 0))
       = Normal percent
    /\ card = card_of NumberToString data risk_text percent.
Proof.
  rewrite ResultCard_cases.
  destruct (negb (truthy data)); [discriminate|].
  destruct (is_null (field data "metadata")); [discriminate|].
  destruct (is_null (field data "risk_analysis")); [discriminate|].
  destruct (String_ _ _) as [risk_text|]; [|discriminate]. cbn [bind].
  destruct (is_null (field data "advanced_analysis")); [discriminate|].
  destruct (percent_of _ _ _) as [percent|]; [|discriminate]. cbn [bind].
  intros H. exists risk_text, percent. now injection H.
Qed.

(** The card exists when no container is [null] and both conversions
    succeed. *)
Lemma ResultCard_builds (data : JsVal) :
  truthy data = true ->
  is_null (field data "metadata") = false ->
  is_null (field data "risk_analysis") = false ->
  is_null (field data "advanced_analysis") = false ->
  convertible (nested data "risk_analysis" "risk_detected") = true ->
  convertible (nested data "advanced_analysis" "risk_score") = true ->
  exists risk_text percent,
    String_ NumberToString (nested data "risk_analysis" "risk_detected")
    = Normal risk_text
    /\ percent_of NumberToString StringToNumber
         (or_else (nested data "advanced_analysis" "risk_score") (JNum 0))
       = Normal percent
    /\ Presenter.ResultCard NumberToString StringToNumber data
       = Normal (Some (card_of NumberToString data risk_text percent)).
Proof.
  intros Ht Hm Hr Ha Hflag Hscore.
  rewrite ResultCard_cases, Ht, Hm, Hr, Ha. cbn [negb].
  destruct (String_settles (nested data "risk_analysis" "risk_detected"))
    as [[_ [risk_text Htext]] | [Hc _]]; [|congruence].
  destruct (percent_of_settles
              (or_else (nested data "advanced_analysis" "risk_score") (JNum 0)))
    as [[_ [percent Hpercent]] | [Hc _]];
    [|rewrite or_else_convertible in Hc; congruence].
  exists risk_text, percent. rewrite Htext, Hpercent. cbn [bind].
  repeat split.
Qed.

Lemma not_null (v : JsVal) : v <> JNull -> is_null v = false.
Proof. destruct v; intros H; try reflexivity. now contradiction H. Qed.

(** C2. For a payload in which none of [metadata], [risk_analysis] and
    [advanced_analysis] is [null] (each is missing or present), and in
    which the risk flag and the risk score, when present, are values that
    convert to a primitive (any boolean, number or string does; an object
    with an own [toString] does not), whatever else is missing at either
    level, the render of [ResultCard] does not throw: it gives [null] for
    a falsy payload and a card otherwise. In the card a missing [summary]
    is the empty string, a missing [input_type] or [call_outcome] is
    [undefined], the risk line is the string of the value read, and a
    missing [risk_score] gives the percentage 0. *)
Theorem C2_missing_fields_do_not_throw (data : JsVal) :
  field data "metadata" <> JNull ->
  field data "risk_analysis" <> JNull ->
  field data "advanced_analysis" <> JNull ->
  convertible (nested data "risk_analysis" "risk_detected") = true ->
  convertible (nested data "advanced_analysis" "risk_score") = true ->
  (truthy data = false
   /\ Presenter.ResultCard NumberToString StringToNumber data = Normal None)
  \/ (truthy data = true
      /\ exists card,
          Presenter.ResultCard NumberToString StringToNumber data
          = Normal (Some card)
          /\ input_type_child card = nested data "metadata" "input_type"
          /\ summary_child card = default_to (JStr "") (field data "summary")
          /\ (field data "summary" = JUndefined -> summary_child card = JStr "")
          /\ String_ NumberToString (nested data "risk_analysis" "risk_detected")
             = Normal (risk_detected_text card)
          /\ call_outcome_child card = nested data "advanced_analysis" "call_outcome"
          /\ (nested data "advanced_analysis" "risk_score" = JUndefined ->
              displayed_percent card = [0%float])).
Proof.
  intros Hm Hr Ha Hflag Hscore.
  destruct (truthy data) eqn:Ht; [right | left; split; [reflexivity|]].
  - split; [reflexivity|].
    destruct (ResultCard_builds data Ht (not_null _ Hm) (not_null _ Hr)
                (not_null _ Ha) Hflag Hscore)
      as (risk_text & percent & Htext & Hpercent & Hcard).
    exists (card_of NumberToString data risk_text percent).
    split; [exact Hcard|]. split; [reflexivity|]. split; [reflexivity|].
    split; [cbn; intros ->; reflexivity|]. split; [exact Htext|].
    split; [reflexivity|].
    intros H. rewrite H in Hpercent. injection Hpercent as <-. reflexivity.
  - unfold Presenter.ResultCard. rewrite Ht. reflexivity.
Qed.

(** C3. The percentage on display is [Math.round] of the risk score times
    100 in binary64 arithmetic. A missing score counts as 0, and so does a
    score of zero or NaN; no bound is applied to the score. For a finite
    product the percentage is a float whose exact value is the exact value
    of the product rounded to the nearest integer, a tie going up. *)
Theorem C3_percent_is_round_half_up (data : JsVal) (card : Card) :
  Presenter.ResultCard NumberToString StringToNumber data = Normal (Some card) ->
  let score := nested data "advanced_analysis" "risk_score" in
  (score = JUndefined -> displayed_percent card = [0%float])
  /\ (forall x, score = JNum x -> truthy (JNum x) = false ->
                displayed_percent card = [0%float])
  /\ (forall x, score = JNum x -> truthy (JNum x) = true ->
                displayed_percent card = [Math_round (PrimFloat.mul x 100)])
  /\ (forall x q, score = JNum x -> truthy (JNum x) = true ->
                  float_value (PrimFloat.mul x 100) = Some q ->
                  exists r q',
                    displayed_percent card = [r]
                    /\ float_value r = Some q'
                    /\ (q' == inject_Z (round_half_up q))%Q
                    /\ (inject_Z (round_half_up q) - (1 # 2) <= q)%Q
                    /\ (q < inject_Z (round_half_up q) + (1 # 2))%Q).
Proof.
  intros Hcard.
  destruct (ResultCard_card _ _ Hcard) as (risk_text & percent & _ & Hpercent & ->).
  cbv zeta. cbn [card_of graph displayed_percent chart_of chart_data].
  repeat split.
  - intros H. rewrite H in Hpercent. injection Hpercent as <-. reflexivity.
  - intros x H Hx. rewrite H in Hpercent. unfold or_else in Hpercent.
    rewrite Hx in Hpercent. injection Hpercent as <-. reflexivity.
  - intros x H Hx. rewrite H in Hpercent. unfold or_else in Hpercent.
    rewrite Hx in Hpercent. injection Hpercent as <-. reflexivity.
  - intros x q H Hx Hq. rewrite H in Hpercent. unfold or_else in Hpercent.
    rewrite Hx in Hpercent. injection Hpercent as <-.
    destruct (Math_round_value _ q Hq) as (q' & Hq' & Hround).
    exists (Math_round (PrimFloat.mul x 100)), q'.
    split; [reflexivity|]. split; [exact Hq'|]. split; [exact Hround|].
    apply round_half_up_nearest.
Qed.

(** C9, as the code has it. The risk line is [String(...)] of whatever
    [risk_analysis.risk_detected] reads: ["true"] or ["false"] for a
    boolean, and ["undefined"] when the flag or its container is
    missing. *)
Theorem C9_risk_flag_is_its_string (data : JsVal) (card : Card) :
  Presenter.ResultCard NumberToString StringToNumber data = Normal (Some card) ->
  let flag := nested data "risk_analysis" "risk_detected" in
  String_ NumberToString flag = Normal (risk_detected_text card)
  /\ (flag = JBool true -> risk_detected_text card = "true")
  /\ (flag = JBool false -> risk_detected_text card = "false")
  /\ (flag = JUndefined -> risk_detected_text card = "undefined").
Proof.
  intros Hcard.
  destruct (ResultCard_card _ _ Hcard) as (risk_text & percent & Htext & _ & ->).
  cbv zeta. cbn [card_of risk_detected_text].
  split; [exact Htext|].
  repeat split; intros H; rewrite H in Htext; now injection Htext as <-.
Qed.

End PresenterFacts.

(** *** The presenter on concrete payloads *)

Lemma C2_witness :
  field (JObj []) "metadata" <> JNull
  /\ forall NumberToString StringToNumber,
       exists card,
         Presenter.ResultCard NumberToString StringToNumber (JObj [])
         = Normal (Some card)
         /\ Presenter.input_type_child card = JUndefined
         /\ Presenter.summary_child card = JStr ""
         /\ Presenter.risk_detected_text card = "undefined"
         /\ Presenter.call_outcome_child card = JUndefined
         /\ Presenter.displayed_percent card = [0%float].
Proof.
  split; [discriminate|]. intros NumberToString StringToNumber.
  destruct (C2_missing_fields_do_not_throw NumberToString StringToNumber (JObj []))
    as [[Hfalsy _] | [_ (card & Hcard & Hi & _ & Hs & Hr & Hc & Hp)]];
    try discriminate; try reflexivity.
  exists card. injection Hr as Hr. repeat split; auto.
Defined.

Lemma C3_witness :
  truthy (JNum 0.5) = true
  /\ forall (NumberToString : float -> string) (StringToNumber : string -> float),
       Presenter.displayed_percent
         (card_of NumberToString
            (JObj [("advanced_analysis", JObj [("risk_score", JNum 0.5)])])
            "undefined" 50)
       = [50%float].
Proof.
  split; [reflexivity|]. intros NumberToString StringToNumber.
  exact (proj1 (proj2 (proj2
           (C3_percent_is_round_half_up NumberToString StringToNumber
              (JObj [("advanced_analysis", JObj [("risk_score", JNum 0.5)])])
              _ eq_refl)))
         0.5%float eq_refl eq_refl).
Defined.

Lemma C9_witness :
  nested all_good "risk_analysis" "risk_detected" = JBool false
  /\ forall (NumberToString : float -> string) (StringToNumber : string -> float),
       Presenter.risk_detected_text (card_of NumberToString all_good "false" 12)
       = "false".
Proof.
  split; [reflexivity|]. intros NumberToString StringToNumber.
  exact (proj1 (proj2 (proj2
           (C9_risk_flag_is_its_string NumberToString StringToNumber all_good
              _ eq_refl)))
         eq_refl).
Defined.

(** C9, as stated, fails: with the flag missing the risk line reads
    ["undefined"], not ["false"]. *)
Lemma C9_missing_flag_reads_undefined :
  nested (JObj [("summary", JStr "All good"); ("risk_analysis", JObj [])])
    "risk_analysis" "risk_detected" = JUndefined
  /\ forall NumberToString StringToNumber,
       exists card,
         Presenter.ResultCard NumberToString StringToNumber
           (JObj [("summary", JStr "All good"); ("risk_analysis", JObj [])])
         = Normal (Some card)
         /\ Presenter.risk_detected_text card = "undefined"
         /\ Presenter.risk_detected_text card <> "false".
Proof.
  split; [reflexivity|]. intros NumberToString StringToNumber.
  eexists. split; [reflexivity|]. split; [reflexivity | discriminate].
Qed.

(** The first end-to-end scenario: summary, risk line, outcome, and 12. *)
Example scenario_all_good NumberToString StringToNumber :
  exists card,
    Presenter.ResultCard NumberToString StringToNumber all_good = Normal (Some card)
    /\ Presenter.input_type_child card = JStr "text"
    /\ Presenter.summary_child card = JStr "All good"
    /\ Presenter.risk_detected_text card = "false"
    /\ Presenter.call_outcome_child card = JStr "resolved"
    /\ Presenter.displayed_percent card = [12%float].
Proof. eexists. repeat split. Qed.

(** Scores above 1 and below 0 are not clamped, and a tie goes up: 12.5
    gives 13 and 37.5 gives 38, where rounding to even would give 12. The
    product is a float before it is rounded: 0x1.70a3d70a3d70ap-5, the float
    of the literal 0.045, times 100 is the float 4.5, which gives 5. *)
Example percent_examples NumberToString StringToNumber :
  let percent := Presenter.percent_of NumberToString StringToNumber in
  percent (JNum 0.5) = Normal 50%float
  /\ percent (JNum 1.5) = Normal 150%float
  /\ percent (JNum (-0.25)) = Normal (-25)%float
  /\ percent (JNum 0.125) = Normal 13%float
  /\ percent (JNum 0.375) = Normal 38%float
  /\ percent (JNum (-0.125)) = Normal (-12)%float
  /\ percent (JNum 0x1.70a3d70a3d70ap-5) = Normal 5%float
  /\ percent JUndefined = Normal 0%float.
Proof. cbv zeta. repeat split. Qed.

(** The conversions on values of an unexpected type: an object with an own
    [toString], as in the JSON text [{"toString":0}], has no string and no
    number, nor has an array that holds one; [null] and [undefined] in an
    array are empty strings. *)
Example conversion_examples NumberToString StringToNumber :
  String_ NumberToString (JObj [("toString", JNum 0)]) = Throw type_error_primitive
  /\ String_ NumberToString (JObj [("valueOf", JNum 0)]) = Normal "[object Object]"
  /\ String_ NumberToString (JArr [JStr "a"; JNull; JArr [JBool true; JUndefined]])
     = Normal "a,,true,"
  /\ String_ NumberToString (JArr [JStr "a"; JObj [("toString", JNull)]])
     = Throw type_error_primitive
  /\ ToNumber NumberToString StringToNumber (JObj [("toString", JNum 0)])
     = Throw type_error_primitive
  /\ ToNumber NumberToString StringToNumber (JArr [JStr "7"])
     = Normal (StringToNumber "7")
  /\ Presenter.percent_of NumberToString StringToNumber (JObj [("toString", JNum 0)])
     = Throw type_error_primitive.
Proof. repeat split. Qed.

(** The reads and the call of [String] throw in the order of the JSX: a
    risk flag without a string is met before a [null]
    [advanced_analysis]. *)
Example render_order NumberToString StringToNumber :
  Presenter.ResultCard NumberToString StringToNumber
    (JObj [("risk_analysis", JObj [("risk_detected", JObj [("toString", JNum 0)])]);
           ("advanced_analysis", JNull)])
  = Throw type_error_primitive
  /\ Presenter.ResultCard NumberToString StringToNumber
       (JObj [("risk_analysis", JObj [("risk_detected", JBool true)]);
              ("advanced_analysis", JNull)])
     = Throw (type_error_read "null" "call_outcome")
  /\ Presenter.ResultCard NumberToString StringToNumber
       (JObj [("advanced_analysis",
               JObj [("risk_score", JObj [("toString", JNum 0)])])])
     = Throw type_error_primitive.
Proof. repeat split. Qed.

(** [Math.round] on the edges of its cases. *)
Example Math_round_examples :
  Math_round 2.5 = 3%float
  /\ Math_round (-2.5) = (-2)%float
  /\ Math_round 0x1.fffffffffffffp-2 = 0%float
  /\ Math_round (-0.5) = PrimFloat.neg_zero
  /\ Math_round 0x1p52 = 0x1p52%float
  /\ Math_round 0x1.fffffffffffffp51 = 0x1p52%float
  /\ Math_round PrimFloat.infinity = PrimFloat.infinity
  /\ Math_round PrimFloat.nan = PrimFloat.nan.
Proof. repeat split. Qed.

(* ================================================================= *)
(** ** Further properties: the handler on every page *)

(** What a resumed handler delivers: a report that is neither [null] nor
    [undefined], or an error that is truthy. *)
Lemma handler_delivers (st : FormState) (f : File) (net : FetchOutcome) :
  file st = FileChosen f ->
  exists v,
    resumed net (handleSubmit props st)
    = Invoke (match v with
              | Succeeded report => OnResult report
              | Failed err => OnError err
              end) (Return tt)
    /\ match v with
       | Succeeded report => report <> JNull /\ report <> JUndefined
       | Failed err => truthy err = true
       end.
Proof.
  intros Hfile. destruct (analyzeFile_returns net) as [v0 Hv0].
  rewrite (handleSubmit_resumed props st f net v0 Hfile (Hv0 Callback)).
  destruct (get v0 "error") as [e | err] eqn:Hget.
  - destruct (truthy e) eqn:He.
    + exists (Failed e). split; [reflexivity | exact He].
    + exists (Succeeded v0). split; [reflexivity|].
      split; intros ->; discriminate Hget.
  - exists (Failed (JStr (str_or_else (message err) "Unknown error"))).
    split; [reflexivity|].
    apply truthy_nonempty, str_or_else_nonempty. discriminate.
Qed.

Lemma suspended_at_In (id : nat) (l : list (nat * Suspended)) (resume : Suspended) :
  suspended_at id l = Some resume -> In (id, resume) l.
Proof.
  induction l as [|[i k] l IH]; cbn; [discriminate|].
  destruct (Nat.eqb_spec id i) as [-> | _].
  - intros [= ->]. now left.
  - intros H. right. now apply IH.
Qed.

Lemma without_all_handlers (id : nat) (l : list (nat * Suspended)) :
  all_handlers l -> all_handlers (without id l).
Proof.
  unfold all_handlers, without. intros Hl. apply Forall_forall.
  intros entry Hin. apply filter_In in Hin. rewrite Forall_forall in Hl.
  now apply Hl.
Qed.

(** The page after the request of a suspended handler has settled. *)
Lemma settle_handler (p : Page) (id : nat) (resume : Suspended) (net : FetchOutcome) :
  handler_of resume ->
  suspended_at id (in_flight p) = Some resume ->
  exists v,
    step p (Settle id net)
    = {| app := delivered v (app p); form := form p; sent := sent p;
         in_flight := without id (in_flight p) |}
    /\ match v with
       | Succeeded report => report <> JNull /\ report <> JUndefined
       | Failed err => truthy err = true
       end.
Proof.
  intros (st & f & Hfile & Hres) Hat.
  destruct (handler_delivers st f net Hfile) as (v & Hv & Hmarks).
  exists v. split; [|exact Hmarks].
  rewrite (settle_page p id resume net Hat), Hres, Hv.
  destruct v; reflexivity.
Qed.

Lemma step_all_handlers (p : Page) (ev : Event) :
  all_handlers (in_flight p) -> all_handlers (in_flight (step p ev)).
Proof.
  intros Hp. destruct ev as [t | c | | id net]; try exact Hp.
  - destruct (file (form p)) as [| | f] eqn:Hfile.
    + cbn [step]. unfold handleSubmit. rewrite Hfile. exact Hp.
    + cbn [step]. unfold handleSubmit. rewrite Hfile. exact Hp.
    + destruct (submit_page p f Hfile) as (req & resume & Hres & _ & ->).
      cbn [in_flight]. apply Forall_app. split; [exact Hp|].
      constructor; [|constructor]. exists (form p), f. split; assumption.
  - destruct (suspended_at id (in_flight p)) as [resume|] eqn:Hat.
    + assert (Hh : handler_of resume).
      { unfold all_handlers in Hp. rewrite Forall_forall in Hp.
        exact (Hp _ (suspended_at_In _ _ _ Hat)). }
      destruct (settle_handler p id resume net Hh Hat) as (v & -> & _).
      cbn [in_flight]. now apply without_all_handlers.
    + cbn [step]. rewrite Hat. exact Hp.
Qed.

Lemma reachable_all_handlers (p : Page) :
  reachable p -> all_handlers (in_flight p).
Proof.
  apply (reachable_ind' (fun p => all_handlers (in_flight p))).
  - constructor.
  - intros q ev. apply step_all_handlers.
Qed.

Lemma reachable_step (p : Page) (ev : Event) :
  reachable p -> reachable (step p ev).
Proof.
  intros [evs ->]. exists (evs ++ [ev])%list. now rewrite run_snoc.
Qed.

(** A settling on a page that can be reached. *)
Lemma settle_reachable (p : Page) (id : nat) (resume : Suspended) (net : FetchOutcome) :
  reachable p ->
  suspended_at id (in_flight p) = Some resume ->
  exists v,
    step p (Settle id net)
    = {| app := delivered v (app p); form := form p; sent := sent p;
         in_flight := without id (in_flight p) |}
    /\ match v with
       | Succeeded report => report <> JNull /\ report <> JUndefined
       | Failed err => truthy err = true
       end.
Proof.
  intros Hreach Hat. apply (settle_handler p id resume net); [|exact Hat].
  pose proof (reachable_all_handlers p Hreach) as Hall.
  unfold all_handlers in Hall. rewrite Forall_forall in Hall.
  exact (Hall _ (suspended_at_In _ _ _ Hat)).
Qed.

(** X1. On a page that can be reached, when the request of any suspended
    submission settles, whatever the outcome, exactly one verdict is
    delivered: [loading] becomes false, one of [result] and [error] is
    written and the other cell is left alone; no request is sent (there is
    no retry) and only that submission leaves the requests in flight. In
    particular the progress line goes away at the first settling even when
    other requests are still in flight. *)
Theorem settling_delivers_one_verdict
    (p : Page) (id : nat) (resume : Suspended) (net : FetchOutcome) :
  reachable p ->
  suspended_at id (in_flight p) = Some resume ->
  exists v,
    app (step p (Settle id net)) = delivered v (app p)
    /\ loading (app (step p (Settle id net))) = false
    /\ match v with
       | Succeeded report =>
           result (app (step p (Settle id net))) = report
           /\ error (app (step p (Settle id net))) = error (app p)
       | Failed err =>
           error (app (step p (Settle id net))) = err
           /\ result (app (step p (Settle id net))) = result (app p)
       end
    /\ sent (step p (Settle id net)) = sent p
    /\ form (step p (Settle id net)) = form p
    /\ in_flight (step p (Settle id net)) = without id (in_flight p).
Proof.
  intros Hreach Hat.
  destruct (settle_reachable p id resume net Hreach Hat) as (v & -> & _).
  exists v. cbn [app sent form in_flight].
  destruct v; repeat split; reflexivity.
Qed.

Lemma settling_delivers_one_verdict_witness :
  let f := {| name := "call.txt"; bytes := [] |} in
  let p := run start [SelectFile (FileChosen f); Submit; Submit] in
  let p' := step p (Settle 0 (Rejects (mkError "Failed to fetch"))) in
  List.length (in_flight p) = 2
  /\ loading (app p') = false
  /\ List.length (in_flight p') = 1.
Proof.
  cbv zeta.
  assert (Hreach : reachable
            (run start [SelectFile (FileChosen {| name := "call.txt"; bytes := [] |});
                        Submit; Submit])).
  { eexists. reflexivity. }
  destruct (settling_delivers_one_verdict _ 0 _ (Rejects (mkError "Failed to fetch"))
              Hreach eq_refl) as (v & _ & Hl & _ & _ & _ & Hin).
  split; [reflexivity|]. split; [exact Hl|]. rewrite Hin. reflexivity.
Defined.

Lemma step_sent_bound (p : Page) (ev : Event) :
  reachable p ->
  List.length (sent (step p ev))
  <= List.length (sent p) + (if is_submit ev then 1 else 0)
  /\ (List.length (in_flight p) <= List.length (sent p) ->
      List.length (in_flight (step p ev)) <= List.length (sent (step p ev))).
Proof.
  intros Hreach. destruct ev as [t | c | | id net]; cbn [is_submit].
  - cbn. split; lia.
  - cbn. split; lia.
  - destruct (file (form p)) as [| | f] eqn:Hfile.
    + cbn [step]. unfold handleSubmit. rewrite Hfile. cbn. split; lia.
    + cbn [step]. unfold handleSubmit. rewrite Hfile. cbn. split; lia.
    + destruct (submit_page p f Hfile) as (req & resume & _ & _ & ->).
      cbn [sent in_flight]. rewrite !length_app. cbn. split; lia.
  - destruct (suspended_at id (in_flight p)) as [resume|] eqn:Hat.
    + destruct (settle_reachable p id resume net Hreach Hat) as (v & -> & _).
      cbn [sent in_flight]. split; [lia|]. intros Hle.
      unfold without. pose proof (filter_length_le
        (fun entry : nat * Suspended => negb (Nat.eqb id (fst entry))) (in_flight p)).
      lia.
    + cbn [step]. rewrite Hat. split; lia.
Qed.

(** X2. Requests come from submits only: on every run from the start, the
    number of requests sent is at most the number of submits (a settling
    or a change of an input never sends one, so nothing is retried), and
    the requests in flight are at most the requests sent. *)
Theorem requests_come_from_submits (evs : list Event) :
  List.length (sent (run start evs)) <= List.length (filter is_submit evs)
  /\ List.length (in_flight (run start evs)) <= List.length (sent (run start evs)).
Proof.
  induction evs as [|ev evs [IHs IHf]] using rev_ind.
  - cbn. split; lia.
  - rewrite run_snoc, filter_app, length_app.
    assert (Hreach : reachable (run start evs)) by (now exists evs).
    destruct (step_sent_bound (run start evs) ev Hreach) as [Hs Hf].
    split; [|now apply Hf].
    cbn [filter]. destruct (is_submit ev); cbn [List.length]; lia.
Qed.

Lemma step_touched (p : Page) (ev : Event) :
  reachable p -> touched (app p) -> touched (app (step p ev)).
Proof.
  intros Hreach Hp. destruct ev as [t | c | | id net]; try exact Hp.
  - destruct (file (form p)) as [| | f] eqn:Hfile.
    + cbn [step]. unfold handleSubmit. rewrite Hfile. right. left. discriminate.
    + cbn [step]. unfold handleSubmit. rewrite Hfile. right. left. discriminate.
    + destruct (submit_page p f Hfile) as (req & resume & _ & _ & ->).
      left. reflexivity.
  - destruct (suspended_at id (in_flight p)) as [resume|] eqn:Hat.
    + destruct (settle_reachable p id resume net Hreach Hat) as (v & -> & Hv).
      cbn [app]. unfold touched. destruct v as [report | err]; cbn.
      * right. right. exact (proj1 Hv).
      * right. left. intros ->. discriminate Hv.
    + cbn [step]. rewrite Hat. exact Hp.
Qed.

Lemma submit_touches (p : Page) : touched (app (step p Submit)).
Proof.
  destruct (file (form p)) as [| | f] eqn:Hfile.
  - cbn [step]. unfold handleSubmit. rewrite Hfile. right. left. discriminate.
  - cbn [step]. unfold handleSubmit. rewrite Hfile. right. left. discriminate.
  - destruct (submit_page p f Hfile) as (req & resume & _ & _ & ->).
    left. reflexivity.
Qed.

Lemma run_touched (evs : list Event) (p : Page) :
  reachable p -> touched (app p) -> touched (app (run p evs)).
Proof.
  revert p. induction evs as [|ev evs IH]; intros p Hreach Hp; [exact Hp|].
  cbn [run fold_left]. apply IH.
  - now apply reachable_step.
  - now apply step_touched.
Qed.

(** X3. Once the form has been submitted, with or without a file, the three
    cells never go back to how [App] starts: from then on the progress line
    is up, or an error is held, or a report is held. *)
Theorem never_back_to_initial (before after : list Event) :
  touched (app (run start (before ++ Submit :: after)))
  /\ app (run start (before ++ Submit :: after)) <> initial.
Proof.
  assert (H : touched (app (run start (before ++ Submit :: after)))).
  { unfold run. rewrite fold_left_app. cbn [fold_left].
    apply run_touched.
    - apply reachable_step. now exists before.
    - apply submit_touches. }
  split; [exact H|]. intros Heq. rewrite Heq in H.
  destruct H as [H | [H | H]]; [discriminate H | now apply H | now apply H].
Qed.

Lemma step_error_shown (p : Page) (ev : Event) :
  reachable p ->
  error (app p) = JNull \/ truthy (error (app p)) = true ->
  error (app (step p ev)) = JNull \/ truthy (error (app (step p ev))) = true.
Proof.
  intros Hreach Hp. destruct ev as [t | c | | id net]; try exact Hp.
  - destruct (file (form p)) as [| | f] eqn:Hfile.
    + cbn [step]. unfold handleSubmit. rewrite Hfile. right. reflexivity.
    + cbn [step]. unfold handleSubmit. rewrite Hfile. right. reflexivity.
    + destruct (submit_page p f Hfile) as (req & resume & _ & _ & ->).
      left. reflexivity.
  - destruct (suspended_at id (in_flight p)) as [resume|] eqn:Hat.
    + destruct (settle_reachable p id resume net Hreach Hat) as (v & -> & Hv).
      cbn [app]. destruct v as [report | err]; cbn; [exact Hp | now right].
    + cbn [step]. rewrite Hat. exact Hp.
Qed.

(** X4. An error that is held is on display: on every run from the start
    the [error] cell is [null] or truthy, so the error line is there exactly
    when the cell is not [null], and what [App] puts in its place otherwise
    is [null], which renders as nothing. *)
Theorem held_error_is_shown
    (NumberToString : float -> string) (StringToNumber : string -> float)
    (evs : list Event) :
  (error (app (run start evs)) = JNull
   \/ shows_error (app (run start evs)) = true)
  /\ forall view,
       Markup.App_view NumberToString StringToNumber (app (run start evs))
       = Normal view ->
       Markup.error_slot view = Markup.Bare JNull
       \/ (Markup.error_slot view = Markup.Element (error (app (run start evs)))
           /\ error (app (run start evs)) <> JNull).
Proof.
  assert (H : error (app (run start evs)) = JNull
              \/ truthy (error (app (run start evs))) = true).
  { induction evs as [|ev evs IH] using rev_ind; [now left|].
    rewrite run_snoc. apply step_error_shown; [now exists evs | exact IH]. }
  split; [exact H|]. intros view. unfold Markup.App_view.
  destruct (truthy (result (app (run start evs)))).
  - destruct (Presenter.ResultCard _ _ _) as [c | e]; cbn [bind]; [|discriminate].
    intros [= <-]. cbn [Markup.error_slot].
    destruct H as [H | H]; rewrite H; [now left | right]. split; [reflexivity|].
    intros Hnull. rewrite Hnull in H. discriminate H.
  - cbn [bind]. intros [= <-]. cbn [Markup.error_slot].
    destruct H as [H | H]; rewrite H; [now left | right]. split; [reflexivity|].
    intros Hnull. rewrite Hnull in H. discriminate H.
Qed.

Lemma step_spinner (p : Page) (ev : Event) :
  reachable p ->
  loading (app p) = false \/ in_flight p <> [] ->
  loading (app (step p ev)) = false \/ in_flight (step p ev) <> [].
Proof.
  intros Hreach Hp. destruct ev as [t | c | | id net]; try exact Hp.
  - destruct (file (form p)) as [| | f] eqn:Hfile.
    + cbn [step]. unfold handleSubmit. rewrite Hfile. now left.
    + cbn [step]. unfold handleSubmit. rewrite Hfile. now left.
    + destruct (submit_page p f Hfile) as (req & resume & _ & _ & ->).
      right. cbn [in_flight]. intros H. now apply app_eq_nil in H.
  - destruct (suspended_at id (in_flight p)) as [resume|] eqn:Hat.
    + destruct (settle_reachable p id resume net Hreach Hat) as (v & -> & _).
      left. destruct v; reflexivity.
    + cbn [step]. rewrite Hat. exact Hp.
Qed.

(** X15. The progress line is never left on with nothing to wait for: on
    every run from the start, [loading] is false or some request is still
    in flight. *)
Theorem no_spinner_without_a_request (evs : list Event) :
  loading (app (run start evs)) = false
  \/ exists entry rest, in_flight (run start evs) = entry :: rest.
Proof.
  assert (H : loading (app (run start evs)) = false
              \/ in_flight (run start evs) <> []).
  { induction evs as [|ev evs IH] using rev_ind; [now left|].
    rewrite run_snoc. apply step_spinner; [now exists evs | exact IH]. }
  destruct H as [H | H]; [now left | right].
  destruct (in_flight (run start evs)) as [|entry rest]; [now contradiction H|].
  now exists entry, rest.
Qed.

(* ================================================================= *)
(** ** Further properties: one submission from the form to the page *)

(** The cells after a submission that ends in the result callback. *)
Lemma successful_submission_state
    (p : Page) (f : File) (res : Response) (data e : JsVal) :
  reachable p ->
  file (form p) = FileChosen f ->
  ok res = true ->
  json res = Normal data ->
  get data "error" = Normal e ->
  truthy e = false ->
  app (run p [Submit; Settle (List.length (sent p)) (Resolves res)])
  = {| loading := false; result := data; error := JNull |}.
Proof.
  intros Hreach Hfile Hok Hjson Hget He.
  rewrite (submit_then_settle p f _ (reachable_ids_below p Hreach) Hfile).
  rewrite (handleSubmit_resumed props (form p) f _ data Hfile
             (fun fd => success_result Callback fd res data Hok Hjson)).
  now rewrite Hget, He.
Qed.

(** X5. A submission whose response has a status in 200-299 and a body that
    parses to [data] with a falsy [error] property ends with [data], as it
    was parsed, in the [result] cell, [loading] false and no error. The
    element tree [App] then returns has no progress line and no error line.
    It has no card at all when [data] is falsy (a body such as [0] or
    [false] is held, and no [ResultCard] is made for it). It has the card
    of [data], with the string of the risk flag and the percentage of the
    risk score, when [data] is truthy, none of its three containers is
    [null], and the flag and the score convert to a primitive. *)
Theorem successful_submission_shows_card
    (NumberToString : float -> string) (StringToNumber : string -> float)
    (p : Page) (f : File) (res : Response) (data e : JsVal) :
  reachable p ->
  file (form p) = FileChosen f ->
  ok res = true ->
  json res = Normal data ->
  get data "error" = Normal e ->
  truthy e = false ->
  let p' := run p [Submit; Settle (List.length (sent p)) (Resolves res)] in
  app p' = {| loading := false; result := data; error := JNull |}
  /\ (truthy data = false ->
      Markup.App_view NumberToString StringToNumber (app p')
      = Normal {| Markup.loading_slot := Markup.Bare (JBool false);
                  Markup.error_slot := Markup.Bare JNull;
                  Markup.result_slot := Markup.Bare data |})
  /\ (truthy data = true ->
      field data "metadata" <> JNull ->
      field data "risk_analysis" <> JNull ->
      field data "advanced_analysis" <> JNull ->
      convertible (nested data "risk_analysis" "risk_detected") = true ->
      convertible (nested data "advanced_analysis" "risk_score") = true ->
      exists risk_text percent,
        String_ NumberToString (nested data "risk_analysis" "risk_detected")
        = Normal risk_text
        /\ Presenter.percent_of NumberToString StringToNumber
             (or_else (nested data "advanced_analysis" "risk_score") (JNum 0))
           = Normal percent
        /\ Markup.App_view NumberToString StringToNumber (app p')
           = Normal {| Markup.loading_slot := Markup.Bare (JBool false);
                       Markup.error_slot := Markup.Bare JNull;
                       Markup.result_slot :=
                         Markup.Element
                           (Some (card_of NumberToString data risk_text percent)) |}).
Proof.
  intros Hreach Hfile Hok Hjson Hget He. cbv zeta.
  rewrite (submit_then_settle p f _ (reachable_ids_below p Hreach) Hfile).
  rewrite (handleSubmit_resumed props (form p) f _ data Hfile
             (fun fd => success_result Callback fd res data Hok Hjson)).
  rewrite Hget, He. cbn [call_onResult props onResult after_calls perform].
  split; [reflexivity|]. unfold Markup.App_view. cbn [App_onResult result error loading submitting].
  split.
  - intros Hfalsy. rewrite Hfalsy. reflexivity.
  - intros Htruthy Hm Hr Ha Hflag Hscore.
    destruct (ResultCard_builds NumberToString StringToNumber data Htruthy
                (not_null _ Hm) (not_null _ Hr) (not_null _ Ha) Hflag Hscore)
      as (risk_text & percent & Htext & Hpercent & Hcard).
    exists risk_text, percent. split; [exact Htext|]. split; [exact Hpercent|].
    rewrite Htruthy, Hcard. reflexivity.
Qed.

Lemma successful_submission_shows_card_witness :
  let f := {| name := "call.txt"; bytes := [] |} in
  let res := {| status := 200; text := Normal "{...}"; json := Normal all_good |} in
  let p := run start [SelectFile (FileChosen f)] in
  get all_good "error" = Normal JUndefined
  /\ forall NumberToString StringToNumber,
       Markup.App_view NumberToString StringToNumber
         (app (run p [Submit; Settle 0 (Resolves res)]))
       = Normal {| Markup.loading_slot := Markup.Bare (JBool false);
                   Markup.error_slot := Markup.Bare JNull;
                   Markup.result_slot :=
                     Markup.Element
                       (Some (card_of NumberToString all_good "false" 12)) |}.
Proof.
  cbv zeta. split; [reflexivity|]. intros NumberToString StringToNumber.
  assert (Hreach : reachable
            (run start [SelectFile (FileChosen {| name := "call.txt"; bytes := [] |})])).
  { eexists. reflexivity. }
  destruct (proj2 (proj2
              (successful_submission_shows_card NumberToString StringToNumber
                 _ {| name := "call.txt"; bytes := [] |}
                 {| status := 200; text := Normal "{...}"; json := Normal all_good |}
                 all_good JUndefined Hreach eq_refl eq_refl eq_refl eq_refl eq_refl))
              eq_refl ltac:(discriminate) ltac:(discriminate) ltac:(discriminate)
              eq_refl eq_refl)
    as (risk_text & percent & Htext & Hpercent & Hview).
  injection Htext as <-. injection Hpercent as <-. exact Hview.
Defined.

(** X6. A body on which the read of [.error] throws is a failure, not a
    report: when the status is in 200-299 and the body parses to a value
    such as [null], the [catch] of [handleSubmit] calls the error callback
    with the message of the [TypeError], the result callback is not called,
    and the submission ends with that message in [error] and no report. *)
Theorem unreadable_body_ends_in_error
    (p : Page) (f : File) (res : Response) (data : JsVal) (err : JsError) :
  reachable p ->
  file (form p) = FileChosen f ->
  ok res = true ->
  json res = Normal data ->
  get data "error" = Throw err ->
  resumed (Resolves res) (handleSubmit props (form p))
  = Invoke (OnError (JStr (str_or_else (message err) "Unknown error"))) (Return tt)
  /\ app (run p [Submit; Settle (List.length (sent p)) (Resolves res)])
     = {| loading := false; result := JNull;
          error := JStr (str_or_else (message err) "Unknown error") |}.
Proof.
  intros Hreach Hfile Hok Hjson Hget.
  assert (H : resumed (Resolves res) (handleSubmit props (form p))
              = Invoke (OnError (JStr (str_or_else (message err) "Unknown error")))
                  (Return tt)).
  { rewrite (handleSubmit_resumed props (form p) f _ data Hfile
               (fun fd => success_result Callback fd res data Hok Hjson)).
    now rewrite Hget. }
  split; [exact H|].
  rewrite (submit_then_settle p f _ (reachable_ids_below p Hreach) Hfile), H.
  reflexivity.
Qed.

Lemma unreadable_body_ends_in_error_witness :
  let f := {| name := "call.txt"; bytes := [] |} in
  let res := {| status := 200; text := Normal "null"; json := Normal JNull |} in
  let p := run start [SelectFile (FileChosen f)] in
  app (run p [Submit; Settle 0 (Resolves res)])
  = {| loading := false; result := JNull;
       error := JStr "Cannot read properties of null (reading 'error')" |}.
Proof.
  cbv zeta.
  assert (Hreach : reachable
            (run start [SelectFile (FileChosen {| name := "call.txt"; bytes := [] |})])).
  { eexists. reflexivity. }
  exact (proj2 (unreadable_body_ends_in_error _
                  {| name := "call.txt"; bytes := [] |}
                  {| status := 200; text := Normal "null"; json := Normal JNull |}
                  JNull (type_error_read "null" "error")
                  Hreach eq_refl eq_refl eq_refl eq_refl)).
Defined.

(** X7. A failure response whose body cannot be read is reported like a
    failed transport: when the status is outside 200-299 and [text()]
    rejects, [analyzeFile] returns what it returns when [fetch] itself
    rejects with the same exception, the message of the exception or
    ["Network error"], and the status does not reach the message; the
    submission ends with that message in [error]. *)
Theorem unreadable_error_body_is_a_network_error
    (p : Page) (f : File) (res : Response) (err : JsError) :
  reachable p ->
  file (form p) = FileChosen f ->
  ok res = false ->
  text res = Throw err ->
  (forall (C : Type) (fd : FormData),
      resumed (Resolves res) (@analyzeFile C fd)
      = Return (error_object (str_or_else (message err) "Network error"))
      /\ resumed (Resolves res) (@analyzeFile C fd)
         = resumed (Rejects err) (@analyzeFile C fd))
  /\ app (run p [Submit; Settle (List.length (sent p)) (Resolves res)])
     = {| loading := false; result := JNull;
          error := JStr (str_or_else (message err) "Network error") |}.
Proof.
  intros Hreach Hfile Hok Htext.
  assert (Hres : forall (C : Type) (fd : FormData),
             resumed (Resolves res) (@analyzeFile C fd)
             = Return (error_object (str_or_else (message err) "Network error"))).
  { intros C fd. cbn [resumed analyzeFile bind]. now rewrite Hok, Htext. }
  split.
  - intros C fd. split; [apply Hres|]. rewrite Hres. reflexivity.
  - rewrite (submit_then_settle p f _ (reachable_ids_below p Hreach) Hfile).
    rewrite (resumed_on_error_object props _ f _ _ Hfile (Hres Callback));
      [reflexivity|].
    apply str_or_else_nonempty. discriminate.
Qed.

Lemma unreadable_error_body_is_a_network_error_witness :
  let f := {| name := "call.txt"; bytes := [] |} in
  let res := {| status := 502; text := Throw (mkError "");
                json := Throw (mkError "") |} in
  let p := run start [SelectFile (FileChosen f)] in
  app (run p [Submit; Settle 0 (Resolves res)])
  = {| loading := false; result := JNull; error := JStr "Network error" |}.
Proof.
  cbv zeta.
  assert (Hreach : reachable
            (run start [SelectFile (FileChosen {| name := "call.txt"; bytes := [] |})])).
  { eexists. reflexivity. }
  exact (proj2 (unreadable_error_body_is_a_network_error _
                  {| name := "call.txt"; bytes := [] |}
                  {| status := 502; text := Throw (mkError "");
                     json := Throw (mkError "") |}
                  (mkError "") Hreach eq_refl eq_refl eq_refl)).
Defined.

(** X8. The file input keeps the first file of the list it is given: the
    submit that follows sends one POST to the analysis endpoint with the
    current input type and that file under its own name, whatever else was
    picked with it. An empty list, or no list, empties the cell, and the
    submit that follows sends nothing and leaves the validation message,
    also when a file had been chosen before. *)
Theorem file_input_keeps_first_file (p : Page) (f : File) (others : list File) :
  (let p1 := step p (SelectFile (Markup.file_onChange (Markup.FileList (f :: others)))) in
   sent (step p1 Submit) = (sent p ++ [analysis_request (inputType (form p)) f])%list
   /\ app (step p1 Submit) = submitting)
  /\ (let p1 := step p (SelectFile (Markup.file_onChange (Markup.FileList []))) in
      sent (step p1 Submit) = sent p
      /\ error (app (step p1 Submit)) = JStr "Please choose a file to upload")
  /\ (let p1 := step p (SelectFile (Markup.file_onChange Markup.NoFileList)) in
      sent (step p1 Submit) = sent p
      /\ error (app (step p1 Submit)) = JStr "Please choose a file to upload").
Proof.
  cbv zeta. repeat split.
Qed.

Lemma step_expected (p : Page) (ev : Event) :
  reachable p ->
  form_event ev ->
  In (inputType (form p)) Markup.type_options /\ Forall expected_request (sent p) ->
  In (inputType (form (step p ev))) Markup.type_options
  /\ Forall expected_request (sent (step p ev)).
Proof.
  intros Hreach Hev [Ht Hs]. destruct ev as [t | c | | id net].
  - split; [exact Hev | exact Hs].
  - split; [exact Ht | exact Hs].
  - destruct (file (form p)) as [| | f] eqn:Hfile.
    + cbn [step]. unfold handleSubmit. rewrite Hfile. split; assumption.
    + cbn [step]. unfold handleSubmit. rewrite Hfile. split; assumption.
    + cbn [step]. unfold handleSubmit. rewrite Hfile.
      cbn [call_onStart props onStart and_then analyzeFile drive form sent].
      split; [exact Ht|]. apply Forall_app. split; [exact Hs|].
      constructor; [|constructor].
      exists (inputType (form p)), f. split; [exact Ht | reflexivity].
  - destruct (suspended_at id (in_flight p)) as [resume|] eqn:Hat.
    + destruct (settle_reachable p id resume net Hreach Hat) as (v & -> & _).
      split; assumption.
    + cbn [step]. rewrite Hat. split; assumption.
Qed.

(** X9. Every request the page ever sends is one the analysis service
    expects: when the inputs change only as the select and the file input of
    the form can change them, each request sent on a run from the start is a
    POST to http://localhost:8000/analyze whose body has exactly the two
    fields [input_type], with "text" or "audio", and [file], with a file
    under its own name. *)
Theorem requests_are_expected (evs : list Event) :
  Forall form_event evs ->
  Forall expected_request (sent (run start evs)).
Proof.
  intros Hevs.
  enough (H : In (inputType (form (run start evs))) Markup.type_options
              /\ Forall expected_request (sent (run start evs))) by apply H.
  induction evs as [|ev evs IH] using rev_ind.
  - split; [now left | constructor].
  - apply Forall_app in Hevs. destruct Hevs as [Hevs Hev].
    rewrite run_snoc. apply step_expected.
    + now exists evs.
    + now inversion Hev.
    + now apply IH.
Qed.

Lemma requests_are_expected_witness :
  let f := {| name := "call.txt"; bytes := [] |} in
  Forall expected_request
    (sent (run start [SelectType "audio";
                      SelectFile (Markup.file_onChange (Markup.FileList [f]));
                      Submit; Submit])).
Proof.
  cbv zeta. apply requests_are_expected.
  constructor; [right; now left|].
  constructor;
    [now exists (Markup.FileList [{| name := "call.txt"; bytes := [] |}])|].
  constructor; [exact I|]. constructor; [exact I | constructor].
Defined.

(** X10. The three callbacks are optional. With none of them supplied, a
    submit without a file does nothing at all, and a submit with a file
    still sends its one request and then, however the request settles,
    returns without calling anything. *)
Theorem callbacks_are_optional (S : Type) (st : FormState) :
  let none : Props S := {| onStart := None; onResult := None; onError := None |} in
  match file st with
  | FileNull | FileUndefined => handleSubmit none st = Return tt
  | FileChosen f =>
      exists resume,
        handleSubmit none st
        = AwaitFetch (analysis_request (inputType st) f) resume
        /\ forall net, resume net = Return tt
  end.
Proof.
  cbv zeta. unfold handleSubmit.
  destruct (file st) as [| | f]; try reflexivity.
  cbn [call_onStart onStart and_then analyzeFile].
  eexists. split; [reflexivity|].
  intros net. cbn [and_then].
  match goal with
  | |- match get ?v "error" with _ => _ end = _ =>
      destruct (get v "error") as [e | err]; [destruct (truthy e)|]; reflexivity
  end.
Qed.

(* ================================================================= *)
(** ** Further properties: the card and the chart *)

Lemma is_null_eq (v : JsVal) : is_null v = true <-> v = JNull.
Proof. destruct v; cbn; split; intros H; try discriminate H; reflexivity. Qed.

(** X11. The render of [ResultCard] throws exactly when its payload is
    truthy and a step of it throws: one of the three containers it reads
    through is [null] (the default of the destructuring replaces a missing
    container, not a [null] one, and the read of the container's property
    is then a [TypeError]), or the risk flag or the risk score does not
    convert to a primitive (an object with an own [toString], or an array
    that holds one, for which [String] and [*] throw a [TypeError]). The
    steps are taken in the order of the JSX and the first that throws
    decides the error: [metadata], [risk_analysis], the flag,
    [advanced_analysis], the score. *)
Theorem ResultCard_throw_conditions
    (NumberToString : float -> string) (StringToNumber : string -> float)
    (data : JsVal) :
  ((exists err, Presenter.ResultCard NumberToString StringToNumber data = Throw err)
   <-> truthy data = true
       /\ (field data "metadata" = JNull
           \/ field data "risk_analysis" = JNull
           \/ field data "advanced_analysis" = JNull
           \/ convertible (nested data "risk_analysis" "risk_detected") = false
           \/ convertible (nested data "advanced_analysis" "risk_score") = false))
  /\ (truthy data = true ->
      field data "metadata" = JNull ->
      Presenter.ResultCard NumberToString StringToNumber data
      = Throw (type_error_read "null" "input_type"))
  /\ (truthy data = true ->
      field data "metadata" <> JNull ->
      field data "risk_analysis" = JNull ->
      Presenter.ResultCard NumberToString StringToNumber data
      = Throw (type_error_read "null" "risk_detected"))
  /\ (truthy data = true ->
      field data "metadata" <> JNull ->
      field data "risk_analysis" <> JNull ->
      convertible (nested data "risk_analysis" "risk_detected") = false ->
      Presenter.ResultCard NumberToString StringToNumber data
      = Throw type_error_primitive)
  /\ (truthy data = true ->
      field data "metadata" <> JNull ->
      field data "risk_analysis" <> JNull ->
      convertible (nested data "risk_analysis" "risk_detected") = true ->
      field data "advanced_analysis" = JNull ->
      Presenter.ResultCard NumberToString StringToNumber data
      = Throw (type_error_read "null" "call_outcome"))
  /\ (truthy data = true ->
      field data "metadata" <> JNull ->
      field data "risk_analysis" <> JNull ->
      convertible (nested data "risk_analysis" "risk_detected") = true ->
      field data "advanced_analysis" <> JNull ->
      convertible (nested data "advanced_analysis" "risk_score") = false ->
      Presenter.ResultCard NumberToString StringToNumber data
      = Throw type_error_primitive).
Proof.
  rewrite ResultCard_cases.
  pose proof (String_settles NumberToString
                (nested data "risk_analysis" "risk_detected")) as Hflag.
  pose proof (percent_of_settles NumberToString StringToNumber
                (or_else (nested data "advanced_analysis" "risk_score") (JNum 0)))
    as Hscore.
  unfold settles in Hflag, Hscore. rewrite or_else_convertible in Hscore.
  split; [|split; [|split; [|split; [|split]]]].
  - destruct (truthy data); cbn [negb].
    2:{ split; [intros [err H]; discriminate H | intros [H _]; discriminate H]. }
    destruct (is_null (field data "metadata")) eqn:Hm.
    { apply is_null_eq in Hm.
      split; [intros _; auto | intros _; eexists; reflexivity]. }
    destruct (is_null (field data "risk_analysis")) eqn:Hr.
    { apply is_null_eq in Hr.
      split; [intros _; auto | intros _; eexists; reflexivity]. }
    destruct Hflag as [[Hc [risk_text ->]] | [Hc ->]]; cbn [bind].
    2:{ split; [intros _; auto 10 | intros _; eexists; reflexivity]. }
    destruct (is_null (field data "advanced_analysis")) eqn:Ha.
    { apply is_null_eq in Ha.
      split; [intros _; auto 10 | intros _; eexists; reflexivity]. }
    destruct Hscore as [[Hs [percent ->]] | [Hs ->]]; cbn [bind].
    2:{ split; [intros _; auto 10 | intros _; eexists; reflexivity]. }
    split; [intros [err H]; discriminate H|].
    intros [_ [H | [H | [H | [H | H]]]]]; rewrite H in *; discriminate.
  - intros Ht Hm. rewrite Ht, Hm. reflexivity.
  - intros Ht Hm Hr. rewrite Ht, (not_null _ Hm), Hr. reflexivity.
  - intros Ht Hm Hr Hc. rewrite Ht, (not_null _ Hm), (not_null _ Hr). cbn [negb].
    destruct Hflag as [[Hc' _] | [_ ->]]; [congruence | reflexivity].
  - intros Ht Hm Hr Hc Ha. rewrite Ht, (not_null _ Hm), (not_null _ Hr), Ha.
    cbn [negb].
    destruct Hflag as [[_ [risk_text ->]] | [Hc' _]]; [reflexivity | congruence].
  - intros Ht Hm Hr Hc Ha Hs.
    rewrite Ht, (not_null _ Hm), (not_null _ Hr), (not_null _ Ha). cbn [negb].
    destruct Hflag as [[_ [risk_text ->]] | [Hc' _]]; [cbn [bind] | congruence].
    destruct Hscore as [[Hs' _] | [_ ->]]; [congruence | reflexivity].
Qed.

(** X12. A body with a [null] container is taken for a report and then
    breaks the render: when the status is in 200-299 and the body parses to
    a truthy [data] with a falsy [error] property and a [null] [metadata],
    [risk_analysis] or [advanced_analysis], the result callback is called
    with it, [data] is held in [result] with no error, and the render of
    [App] throws the [TypeError] of [ResultCard]. *)
Theorem null_container_breaks_the_render
    (NumberToString : float -> string) (StringToNumber : string -> float)
    (p : Page) (f : File) (res : Response) (data e : JsVal) :
  reachable p ->
  file (form p) = FileChosen f ->
  ok res = true ->
  json res = Normal data ->
  get data "error" = Normal e ->
  truthy e = false ->
  truthy data = true ->
  field data "metadata" = JNull
  \/ field data "risk_analysis" = JNull
  \/ field data "advanced_analysis" = JNull ->
  let p' := run p [Submit; Settle (List.length (sent p)) (Resolves res)] in
  app p' = {| loading := false; result := data; error := JNull |}
  /\ exists err,
      Markup.App_view NumberToString StringToNumber (app p') = Throw err.
Proof.
  intros Hreach Hfile Hok Hjson Hget He Htruthy Hnull. cbv zeta.
  rewrite (successful_submission_state p f res data e Hreach Hfile Hok Hjson Hget He).
  split; [reflexivity|].
  unfold Markup.App_view. cbn [result]. rewrite Htruthy, ResultCard_cases, Htruthy.
  cbn [negb].
  destruct (is_null (field data "metadata")) eqn:Hm; [eexists; reflexivity|].
  destruct (is_null (field data "risk_analysis")) eqn:Hr; [eexists; reflexivity|].
  destruct (String_ _ _) as [risk_text | err]; cbn [bind]; [|eexists; reflexivity].
  destruct (is_null (field data "advanced_analysis")) eqn:Ha; [eexists; reflexivity|].
  destruct Hnull as [H | [H | H]]; rewrite H in *; discriminate.
Qed.

Lemma null_container_breaks_the_render_witness :
  let f := {| name := "call.txt"; bytes := [] |} in
  let data := JObj [("summary", JStr "All good"); ("risk_analysis", JNull)] in
  let res := {| status := 200; text := Normal "{...}"; json := Normal data |} in
  let p := run start [SelectFile (FileChosen f)] in
  field data "risk_analysis" = JNull
  /\ forall NumberToString StringToNumber,
       exists err,
         Markup.App_view NumberToString StringToNumber
           (app (run p [Submit; Settle 0 (Resolves res)]))
         = Throw err.
Proof.
  cbv zeta. split; [reflexivity|]. intros NumberToString StringToNumber.
  assert (Hreach : reachable
            (run start [SelectFile (FileChosen {| name := "call.txt"; bytes := [] |})])).
  { eexists. reflexivity. }
  refine (proj2 (null_container_breaks_the_render NumberToString StringToNumber
                   _ {| name := "call.txt"; bytes := [] |}
                   {| status := 200; text := Normal "{...}";
                      json := Normal (JObj [("summary", JStr "All good");
                                            ("risk_analysis", JNull)]) |}
                   (JObj [("summary", JStr "All good"); ("risk_analysis", JNull)])
                   JUndefined Hreach eq_refl eq_refl eq_refl eq_refl eq_refl eq_refl _)).
  right. left. reflexivity.
Defined.

(** X13. Every falsy risk score counts as 0: when the card is built and
    [advanced_analysis.risk_score] is missing, [null], [false], [0], [NaN]
    or the empty string, the chart is given 0. *)
Theorem falsy_score_is_zero
    (NumberToString : float -> string) (StringToNumber : string -> float)
    (data : JsVal) (card : Presenter.Card) :
  Presenter.ResultCard NumberToString StringToNumber data = Normal (Some card) ->
  truthy (nested data "advanced_analysis" "risk_score") = false ->
  Presenter.displayed_percent card = [0%float].
Proof.
  intros Hcard Hfalsy.
  destruct (ResultCard_card _ _ _ _ Hcard) as (risk_text & percent & _ & Hpercent & ->).
  unfold or_else in Hpercent. rewrite Hfalsy in Hpercent.
  injection Hpercent as <-. reflexivity.
Qed.

Lemma falsy_score_is_zero_witness :
  truthy JNull = false
  /\ forall (NumberToString : float -> string) (StringToNumber : string -> float),
       Presenter.displayed_percent
         (card_of NumberToString
            (JObj [("advanced_analysis", JObj [("risk_score", JNull)])])
            "undefined" 0)
       = [0%float].
Proof.
  split; [reflexivity|]. intros NumberToString StringToNumber.
  exact (falsy_score_is_zero NumberToString StringToNumber
           (JObj [("advanced_analysis", JObj [("risk_score", JNull)])])
           _ eq_refl eq_refl).
Defined.

Lemma integral_value (x : float) (q : Q) (n : Z) :
  float_value x = Some q -> (q == inject_Z n)%Q -> is_integral x = true.
Proof.
  intros Hq Hn. unfold is_integral. rewrite Hq.
  apply Qeq_bool_iff. rewrite (Qfloor_comp _ _ Hn), Qfloor_Z. now symmetry.
Qed.

(** X14. The chart is always given a whole number: for every risk score,
    of any type, from which [SummaryGraph] computes a percentage, the
    percentage is NaN or infinite, or it is a float whose exact value is an
    integer (so rounding it again would not change it). No percentage is
    computed, and the [TypeError] of the conversion is thrown, exactly for
    a score that does not convert to a primitive. *)
Theorem percent_is_integral
    (NumberToString : float -> string) (StringToNumber : string -> float)
    (riskScore : JsVal) :
  match Presenter.percent_of NumberToString StringToNumber riskScore with
  | Normal percent =>
      convertible riskScore = true
      /\ (float_value percent = None
          \/ (is_integral percent = true
              /\ Math_round percent = percent
              /\ exists q n, float_value percent = Some q /\ (q == inject_Z n)%Q))
  | Throw err => convertible riskScore = false /\ err = type_error_primitive
  end.
Proof.
  destruct (percent_of_settles NumberToString StringToNumber riskScore)
    as [[Hc [percent Hpercent]] | [Hc Hthrow]].
  2:{ rewrite Hthrow. split; [exact Hc | reflexivity]. }
  rewrite Hpercent. split; [exact Hc|].
  unfold Presenter.percent_of in Hpercent. cbv zeta in Hpercent.
  destruct (ToNumber _ _ _) as [n|]; [|discriminate]. cbn [bind] in Hpercent.
  injection Hpercent as <-.
  set (y := PrimFloat.mul n 100).
  destruct (float_value y) as [q|] eqn:Hy.
  - right. destruct (Math_round_value y q Hy) as (q' & Hq' & Hn).
    pose proof (integral_value _ _ _ Hq' Hn) as Hint.
    split; [exact Hint|]. split.
    + unfold Math_round at 1. now rewrite Hq', Hint.
    + now exists q', (round_half_up q).
  - left. unfold Math_round. now rewrite Hy.
Qed.
